(** * Mergington High School activities API: a shallow embedding of [src/app.py]

    The module-level globals of [app.py] ([teacher_credentials],
    [teacher_sessions], [activities]) become the fields of one [State]
    record.  Every route handler is a computation in a small state and
    exception monad [M]: it receives the globals, may raise an
    [HTTPException], and hands back the (possibly mutated) globals.
    Python dictionaries are [gmap]s with string keys, Python lists are
    Rocq lists, Python [str] is [string].  The credential dictionary is
    built from whatever [json.load] returns, so it is a dictionary of
    JSON values.  Requests are served one after the other: a run of the
    service is a list of calls. *)

From Stdlib Require Import ZArith.
From stdpp Require Import gmap strings list fin_maps.

Local Open Scope Z_scope.
Local Open Scope string_scope.
Local Open Scope list_scope.

(** ** Python primitives used by the source *)

Module Py.

(** Truth value of a [str]: only the empty string is falsy. *)
Definition truthy (s : string) : bool :=
  match s with
  | EmptyString => false
  | String _ _ => true
  end.

(** [l.remove(x)]: drops the first element equal to [x].  (Python raises
    [ValueError] when there is none; the only call site is guarded by a
    membership test, and here the list is then returned as it is.) *)
Fixpoint list_remove (x : string) (l : list string) : list string :=
  match l with
  | [] => []
  | y :: l' => if decide (x = y) then l' else y :: list_remove x l'
  end.

(** [l.append(x)] *)
Definition list_append (l : list string) (x : string) : list string :=
  l ++ [x].

(** What [secrets.token_urlsafe(32)] can return: the unpadded base64
    text of 32 random bytes, which is 43 characters long. *)
Definition token_urlsafe_32 (t : string) : Prop := String.length t = 43%nat.

(** [l.count(x)] *)
Fixpoint list_count (x : string) (l : list string) : nat :=
  match l with
  | [] => 0%nat
  | y :: l' => if decide (x = y) then S (list_count x l') else list_count x l'
  end.

End Py.

(** ** Values read from [teachers.json] *)

(** A Python [float]: a signed zero, [(-1)^s * m * 2^e], an infinity or
    NaN.  Every binary64 value is of this form. *)
Inductive PyFloat :=
| FZero (negative : bool)
| FFinite (negative : bool) (mantissa : positive) (exponent : Z)
| FInf (negative : bool)
| FNaN.

#[local] Set Warnings "-register-all".

(** What [json.load] returns: [None], a [bool], an [int], a [float], a
    [str], a [list], or a [dict] whose keys are [str]. *)
Inductive Json :=
| JNull
| JBool (b : bool)
| JInt (n : Z)
| JFloat (x : PyFloat)
| JStr (s : string)
| JArr (items : list Json)
| JObj (fields : gmap string Json).

#[local] Set Warnings "register-all".

(** [bool(v)]: [None], [False], zero, and the empty string, list and
    dictionary are falsy; everything else, NaN included, is truthy. *)
Definition py_truthy (v : Json) : bool :=
  match v with
  | JNull => false
  | JBool b => b
  | JInt n => negb (n =? 0)%Z
  | JFloat (FZero _) => false
  | JFloat _ => true
  | JStr s => Py.truthy s
  | JArr [] => false
  | JArr (_ :: _) => true
  | JObj fields => negb (bool_decide (size fields = 0%nat))
  end.

(** [d.get(name)] on a [dict] with [str] keys; [JNull] is [None]. *)
Definition py_field (fields : gmap string Json) (name : string) : Json :=
  default JNull (fields !! name).

(** The items that [for x in v] goes through, [None] when [v] is not
    iterable ([TypeError]): the elements of a list, the characters of a
    string (here one per byte; each is a [str] either way), the keys of
    a dictionary. *)
Definition py_iter (v : Json) : option (list Json) :=
  match v with
  | JArr items => Some items
  | JStr s =>
      Some (map (fun c => JStr (String c EmptyString)) (String.list_ascii_of_string s))
  | JObj fields => Some (map (fun kv => JStr (fst kv)) (map_to_list fields))
  | JNull | JBool _ | JInt _ | JFloat _ => None
  end.

(** A number up to [==]: zero, [(-1)^s * m * 2^e] with [m] odd, an
    infinity, or NaN.  [True == 1 == 1.0], and every NaN that
    [json.load] returns is the one object [json.decoder.NaN]. *)
Inductive PyNumber :=
| NZero
| NFinite (negative : bool) (odd : positive) (exponent : Z)
| NInf (negative : bool)
| NNaN.

(** A dictionary key up to [==] and [hash]. *)
Inductive PyKey :=
| KNone
| KStr (s : string)
| KNum (x : PyNumber).

#[global] Instance PyNumber_eq_dec : EqDecision PyNumber.
Proof. solve_decision. Defined.

#[global] Instance PyKey_eq_dec : EqDecision PyKey.
Proof. solve_decision. Defined.

Fixpoint strip_twos (negative : bool) (m : positive) (e : Z) : PyNumber :=
  match m with
  | xO m' => strip_twos negative m' (e + 1)%Z
  | _ => NFinite negative m e
  end.

Definition number_of_Z (n : Z) : PyNumber :=
  match n with
  | Z0 => NZero
  | Zpos m => strip_twos false m 0
  | Zneg m => strip_twos true m 0
  end.

Definition number_of_float (x : PyFloat) : PyNumber :=
  match x with
  | FZero _ => NZero
  | FFinite negative m e => strip_twos negative m e
  | FInf negative => NInf negative
  | FNaN => NNaN
  end.

(** The key [v] is when used to index a dictionary; [None] when [v] is
    unhashable (a list or a dictionary), which raises [TypeError]. *)
Definition py_key (v : Json) : option PyKey :=
  match v with
  | JNull => Some KNone
  | JBool b => Some (KNum (number_of_Z (if b then 1 else 0)))
  | JInt n => Some (KNum (number_of_Z n))
  | JFloat x => Some (KNum (number_of_float x))
  | JStr s => Some (KStr s)
  | JArr _ | JObj _ => None
  end.

(** A Python [dict] built at run time: its items in insertion order,
    each with the key object that was inserted first. *)
Record PyDict := mkPyDict {
  py_items : list (Json * Json)
}.

(** [d.get(key)] for a hashable [key] of class [k]. *)
Fixpoint items_get (k : PyKey) (items : list (Json * Json)) : option Json :=
  match items with
  | [] => None
  | (key', v) :: rest =>
      if decide (py_key key' = Some k) then Some v else items_get k rest
  end.

(** [d[key] = v] for a hashable [key] of class [k]: an equal key keeps
    its place and its key object and takes the new value; a new key goes
    to the end. *)
Fixpoint items_set (key : Json) (k : PyKey) (v : Json)
    (items : list (Json * Json)) : list (Json * Json) :=
  match items with
  | [] => [(key, v)]
  | (key', v') :: rest =>
      if decide (py_key key' = Some k)
      then (key', v) :: rest
      else (key', v') :: items_set key k v rest
  end.

(** [d.get(u)] for a [str] [u]. *)
Definition dict_get_str (d : PyDict) (u : string) : option Json :=
  items_get (KStr u) (py_items d).

(** The empty dictionary. *)
#[global] Instance PyDict_empty : Empty PyDict := mkPyDict [].

(** [d !! u = Some p]: the dictionary maps the [str] [u] to the [str]
    [p].  ([None] when [u] is not a key, and when its value is not a
    [str].) *)
#[global] Instance PyDict_lookup : Lookup string string PyDict :=
  fun u d =>
    match dict_get_str d u with
    | Some (JStr p) => Some p
    | _ => None
    end.

(** [not o] for the result of a [get]. *)
Definition py_falsy_opt (o : option Json) : bool :=
  match o with
  | Some v => negb (py_truthy v)
  | None => true
  end.

(** [o != p] for the result of a [get] and a [str] [p]: only an equal
    [str] is not different. *)
Definition py_ne_str (o : option Json) (p : string) : bool :=
  match o with
  | Some (JStr s) => bool_decide (s ≠ p)
  | _ => true
  end.

(** ** Data model *)

(** One value of the [activities] dictionary. *)
Record Activity := mkActivity {
  description : string;
  schedule : string;
  max_participants : Z;
  participants : list string
}.

(** The three module-level globals. *)
Record State := mkState {
  teacher_credentials : PyDict;
  teacher_sessions : gmap string string;
  activities : gmap string Activity
}.

(** [class LoginRequest(BaseModel)] *)
Record LoginRequest := mkLoginRequest {
  username : string;
  password : string
}.

(** The part of a FastAPI [Request] the handlers read: its cookie jar. *)
Record Request := mkRequest {
  cookies : gmap string string
}.

Record HTTPException := mkHTTPException {
  status_code : Z;
  detail : string
}.

(** What a handler does to the cookie of the response it returns. *)
Inductive CookieAction :=
| NoCookie
| SetCookie (key value : string) (httponly : bool) (samesite : string) (max_age : Z)
| DeleteCookie (key : string).

(** A JSON body made of string fields, plus the cookie action. *)
Record Response := mkResponse {
  content : list (string * string);
  cookie_action : CookieAction
}.

(** ** The handler monad: global state plus [raise] *)

Inductive Outcome (A : Type) :=
| Return (a : A)
| Raise (e : HTTPException).
Arguments Return {A} a.
Arguments Raise {A} e.

Definition M (A : Type) : Type := State -> Outcome A * State.

#[global] Instance M_ret : MRet M := fun A a s => (Return a, s).

#[global] Instance M_bind : MBind M := fun A B k m s =>
  match m s with
  | (Return a, s') => k a s'
  | (Raise e, s') => (Raise e, s')
  end.

Definition raise {A : Type} (e : HTTPException) : M A :=
  fun s => (Raise e, s).

Definition get_state : M State := fun s => (Return s, s).

Definition put_state (s' : State) : M unit := fun _ => (Return tt, s').

(** ** Startup: [load_teachers] *)

(** What is found at the path of [teachers.json] when it exists: a
    file that [open] refuses (an [OSError]), a text that [json.load]
    refuses (it raises [UnicodeDecodeError], [JSONDecodeError] or, on
    very deep nesting, [RecursionError]), or a JSON document. *)
Inductive TeachersFile :=
| Unreadable
| Malformed
| Parsed (data : Json).

(** How [load_teachers] ends: it returns the dictionary, or one of these
    exceptions leaves it (and the import of the module). *)
Inductive LoadResult :=
| Loaded (credentials : PyDict)
| RuntimeError (message : string)
| OSError
| JsonLoadError
| AttributeError
| TypeError.

(** Body of the [for teacher in teachers] loop; [acc] is the dictionary
    built so far.  [teacher.get] exists on a [dict] only, and the
    assignment hashes [username]. *)
Definition load_entry (acc : PyDict) (teacher : Json) : LoadResult :=
  match teacher with
  | JObj fields =>
      let username := py_field fields "username" in
      let password := py_field fields "password" in
      if py_truthy username && py_truthy password
      then match py_key username with
           | Some k => Loaded (mkPyDict (items_set username k password (py_items acc)))
           | None => TypeError
           end
      else Loaded acc
  | _ => AttributeError
  end.

(** The [for] loop: an exception in the body ends it. *)
Fixpoint load_loop (acc : PyDict) (teachers : list Json) : LoadResult :=
  match teachers with
  | [] => Loaded acc
  | teacher :: rest =>
      match load_entry acc teacher with
      | Loaded acc' => load_loop acc' rest
      | raised => raised
      end
  end.

(** [load_teachers()]; the argument is [None] when [teachers.json] does
    not exist. *)
Definition load_teachers (file : option TeachersFile) : LoadResult :=
  match file with
  | None => RuntimeError "teachers.json not found in src directory"
  | Some Unreadable => OSError
  | Some Malformed => JsonLoadError
  | Some (Parsed data) =>
      match data with
      | JObj fields =>
          let teachers := default (JArr []) (fields !! "teachers") in
          match py_iter teachers with
          | Some items =>
              match load_loop ∅ items with
              | Loaded teacher_credentials =>
                  match py_items teacher_credentials with
                  | [] =>
                      RuntimeError
                        "No valid teacher credentials found in teachers.json"
                  | _ :: _ => Loaded teacher_credentials
                  end
              | raised => raised
              end
          | None => TypeError
          end
      | _ => AttributeError
      end
  end.

(** ** The seed activity database *)

Definition seed_activities : gmap string Activity :=
  list_to_map [
    ("Chess Club",
      mkActivity "Learn strategies and compete in chess tournaments"
        "Fridays, 3:30 PM - 5:00 PM" 12
        ["michael@mergington.edu"; "daniel@mergington.edu"]);
    ("Programming Class",
      mkActivity "Learn programming fundamentals and build software projects"
        "Tuesdays and Thursdays, 3:30 PM - 4:30 PM" 20
        ["emma@mergington.edu"; "sophia@mergington.edu"]);
    ("Gym Class",
      mkActivity "Physical education and sports activities"
        "Mondays, Wednesdays, Fridays, 2:00 PM - 3:00 PM" 30
        ["john@mergington.edu"; "olivia@mergington.edu"]);
    ("Soccer Team",
      mkActivity "Join the school soccer team and compete in matches"
        "Tuesdays and Thursdays, 4:00 PM - 5:30 PM" 22
        ["liam@mergington.edu"; "noah@mergington.edu"]);
    ("Basketball Team",
      mkActivity "Practice and play basketball with the school team"
        "Wednesdays and Fridays, 3:30 PM - 5:00 PM" 15
        ["ava@mergington.edu"; "mia@mergington.edu"]);
    ("Art Club",
      mkActivity "Explore your creativity through painting and drawing"
        "Thursdays, 3:30 PM - 5:00 PM" 15
        ["amelia@mergington.edu"; "harper@mergington.edu"]);
    ("Drama Club",
      mkActivity "Act, direct, and produce plays and performances"
        "Mondays and Wednesdays, 4:00 PM - 5:30 PM" 20
        ["ella@mergington.edu"; "scarlett@mergington.edu"]);
    ("Math Club",
      mkActivity "Solve challenging problems and participate in math competitions"
        "Tuesdays, 3:30 PM - 4:30 PM" 10
        ["james@mergington.edu"; "benjamin@mergington.edu"]);
    ("Debate Team",
      mkActivity "Develop public speaking and argumentation skills"
        "Fridays, 4:00 PM - 5:30 PM" 12
        ["charlotte@mergington.edu"; "henry@mergington.edu"])
  ].

(** The globals right after import, for the credentials that
    [load_teachers] returned: no session yet, the seed activities. *)
Definition initial_state (credentials : PyDict) : State :=
  mkState credentials ∅ seed_activities.

(** ** Authentication helpers *)

Definition session_cookie : string := "teacher_session".

Definition get_current_teacher (request : Request) : M (option string) :=
  s ← get_state;
  match cookies request !! session_cookie with
  | None => mret None
  | Some session_token =>
      if Py.truthy session_token
      then mret (teacher_sessions s !! session_token)
      else mret None
  end.

Definition unauthorized : HTTPException :=
  mkHTTPException 401 "Only logged-in teachers can register or unregister students".

Definition require_teacher (request : Request) : M string :=
  teacher_username ← get_current_teacher request;
  match teacher_username with
  | Some name => if Py.truthy name then mret name else raise unauthorized
  | None => raise unauthorized
  end.

(** ** Route handlers *)

(** [POST /auth/login].  [session_token] is the string that
    [secrets.token_urlsafe(32)] draws in this call: the random source is
    outside the program, so its draw is an input of the model. *)
Definition login_teacher (credentials : LoginRequest) (session_token : string)
  : M Response :=
  s ← get_state;
  let expected_password :=
    dict_get_str (teacher_credentials s) (username credentials) in
  if py_falsy_opt expected_password
     || py_ne_str expected_password (password credentials)
  then raise (mkHTTPException 401 "Invalid username or password")
  else
    _ ← put_state
          (mkState (teacher_credentials s)
                   (<[session_token := username credentials]> (teacher_sessions s))
                   (activities s));
    mret (mkResponse
            [("message", "Logged in as " +:+ username credentials);
             ("username", username credentials)]
            (SetCookie session_cookie session_token true "lax" (8 * 60 * 60))).

(** [POST /auth/logout] *)
Definition logout_teacher (request : Request) : M Response :=
  s ← get_state;
  _ ← match cookies request !! session_cookie with
      | Some session_token =>
          if Py.truthy session_token
          then put_state
                 (mkState (teacher_credentials s)
                          (delete session_token (teacher_sessions s))
                          (activities s))
          else mret tt
      | None => mret tt
      end;
  mret (mkResponse [("message", "Logged out")] (DeleteCookie session_cookie)).

(** The activity record after its ["participants"] list was mutated. *)
Definition with_participants (activity : Activity) (l : list string) : Activity :=
  mkActivity (description activity) (schedule activity)
             (max_participants activity) l.

(** Writing through [activities[activity_name]]: the record stored under
    the key is the one that was mutated. *)
Definition store_activity (s : State) (activity_name : string)
    (activity : Activity) : State :=
  mkState (teacher_credentials s) (teacher_sessions s)
          (<[activity_name := activity]> (activities s)).

(** [POST /activities/{activity_name}/signup] *)
Definition signup_for_activity (activity_name email : string) (request : Request)
  : M Response :=
  _ ← require_teacher request;
  s ← get_state;
  match activities s !! activity_name with
  | None => raise (mkHTTPException 404 "Activity not found")
  | Some activity =>
      if bool_decide (email ∈ participants activity)
      then raise (mkHTTPException 400 "Student is already signed up")
      else
        _ ← put_state
              (store_activity s activity_name
                 (with_participants activity
                    (Py.list_append (participants activity) email)));
        mret (mkResponse
                [("message", "Signed up " +:+ email +:+ " for " +:+ activity_name)]
                NoCookie)
  end.

(** [DELETE /activities/{activity_name}/unregister] *)
Definition unregister_from_activity (activity_name email : string)
    (request : Request) : M Response :=
  _ ← require_teacher request;
  s ← get_state;
  match activities s !! activity_name with
  | None => raise (mkHTTPException 404 "Activity not found")
  | Some activity =>
      if bool_decide (email ∉ participants activity)
      then raise (mkHTTPException 400 "Student is not signed up for this activity")
      else
        _ ← put_state
              (store_activity s activity_name
                 (with_participants activity
                    (Py.list_remove email (participants activity))));
        mret (mkResponse
                [("message", "Unregistered " +:+ email +:+ " from " +:+ activity_name)]
                NoCookie)
  end.

(** ** Runs of the service *)

(** One request reaching one of the four state-touching routes. *)
Inductive Call :=
| CallLogin (credentials : LoginRequest) (session_token : string)
| CallLogout (request : Request)
| CallSignup (activity_name email : string) (request : Request)
| CallUnregister (activity_name email : string) (request : Request).

Definition handle (c : Call) : M Response :=
  match c with
  | CallLogin credentials session_token => login_teacher credentials session_token
  | CallLogout request => logout_teacher request
  | CallSignup activity_name email request =>
      signup_for_activity activity_name email request
  | CallUnregister activity_name email request =>
      unregister_from_activity activity_name email request
  end.

(** The globals after a request, whether it returned or raised. *)
Definition step (s : State) (c : Call) : State := snd (handle c s).

Definition run (calls : list Call) (s : State) : State := foldl step s calls.

(** A call as the running service can see it: the token of a login is
    one that [secrets.token_urlsafe(32)] can draw. *)
Definition well_formed_call (c : Call) : Prop :=
  match c with
  | CallLogin _ session_token => Py.token_urlsafe_32 session_token
  | _ => True
  end.

(** A state the service can be in: [load_teachers] returned at import
    time, then some requests were served. *)
Definition reachable (s : State) : Prop :=
  ∃ file credentials calls,
    load_teachers file = Loaded credentials
    ∧ Forall well_formed_call calls
    ∧ s = run calls (initial_state credentials).

(** A request carrying [token] as its session cookie, and one without. *)
Definition request_with (token : string) : Request :=
  mkRequest {[ session_cookie := token ]}.

Definition request_without : Request := mkRequest ∅.

(** ** Specification vocabulary *)

(** The request carries a session cookie whose token the session table
    maps to [teacher]: the caller [require_teacher] lets through. *)
Definition logged_in (s : State) (request : Request) (teacher : string) : Prop :=
  ∃ token,
    cookies request !! session_cookie = Some token
    ∧ token ≠ EmptyString
    ∧ teacher_sessions s !! token = Some teacher
    ∧ teacher ≠ EmptyString.

(** The session cookie is absent, or its token resolves to no username. *)
Definition anonymous (s : State) (request : Request) : Prop :=
  cookies request !! session_cookie = None
  ∨ ∃ token, cookies request !! session_cookie = Some token
             ∧ teacher_sessions s !! token = None.

(** Every roster lists pairwise-distinct emails. *)
Definition rosters_distinct (s : State) : Prop :=
  ∀ activity_name activity,
    activities s !! activity_name = Some activity →
    NoDup (participants activity).

(** No empty user name or password in the credential store, and no
    session with an empty token or held by an empty user name. *)
Definition names_nonempty (s : State) : Prop :=
  (∀ u p, teacher_credentials s !! u = Some p → u ≠ EmptyString ∧ p ≠ EmptyString)
  ∧ (∀ token u, teacher_sessions s !! token = Some u →
       token ≠ EmptyString ∧ u ≠ EmptyString).

(** Every value of the dictionary is truthy, and no key is the empty
    string. *)
Definition dict_truthy (d : PyDict) : Prop :=
  ∀ k v, items_get k (py_items d) = Some v →
         py_truthy v = true ∧ k ≠ KStr EmptyString.

(** What the loop body reads from an array element: its ["username"]
    and ["password"], [JNull] when the element is an object without the
    key. *)
Definition entry_username (teacher : Json) : Json :=
  match teacher with
  | JObj fields => py_field fields "username"
  | _ => JNull
  end.

Definition entry_password (teacher : Json) : Json :=
  match teacher with
  | JObj fields => py_field fields "password"
  | _ => JNull
  end.

Definition is_object (teacher : Json) : Prop :=
  ∃ fields, teacher = JObj fields.

(** A valid entry: an object whose user name and password are both
    truthy (for strings: not empty). *)
Definition valid_entry (teacher : Json) : Prop :=
  is_object teacher
  ∧ py_truthy (entry_username teacher) = true
  ∧ py_truthy (entry_password teacher) = true.

(** An entry the loop body gets past: an object whose user name, when
    the entry is valid, can be hashed. *)
Definition sound_entry (teacher : Json) : Prop :=
  is_object teacher
  ∧ (valid_entry teacher → is_Some (py_key (entry_username teacher))).

(** The items [load_teachers] iterates over. *)
Definition entries_of (file : option TeachersFile) : list Json :=
  match file with
  | Some (Parsed (JObj fields)) =>
      default [] (py_iter (default (JArr []) (fields !! "teachers")))
  | _ => []
  end.


(** ** Concrete configurations used to exercise the model *)

(** [{"username": u, "password": p}] *)
Definition teacher_object (u p : Json) : Json :=
  JObj (<[ "username" := u ]> {[ "password" := p ]}).

Definition demo_file : TeachersFile :=
  Parsed (JObj {[ "teachers" :=
    JArr [teacher_object (JStr "mr.smith") (JStr "secret");
          JObj {[ "username" := JStr "ghost" ]}] ]}).

Definition demo_credentials : PyDict :=
  mkPyDict [(JStr "mr.smith", JStr "secret")].

Definition demo_token : string :=
  "kq3N0m9XvT1yGd7Zs5Lh2Rb8Wc4Jf6Ua0PeMiOoQxYt".

Definition demo_login : Call :=
  CallLogin (mkLoginRequest "mr.smith" "secret") demo_token.

(** Start-up followed by one successful login. *)
Definition demo_state : State :=
  run [demo_login] (initial_state demo_credentials).

(** Eight further sign-ups fill the Math Club to its advertised
    capacity of ten. *)
Definition crowd : list string :=
  ["s1@mergington.edu"; "s2@mergington.edu"; "s3@mergington.edu";
   "s4@mergington.edu"; "s5@mergington.edu"; "s6@mergington.edu";
   "s7@mergington.edu"; "s8@mergington.edu"].

Definition crowd_calls : list Call :=
  demo_login
  :: map (fun email => CallSignup "Math Club" email (request_with demo_token)) crowd.

Definition crowded_state : State :=
  run crowd_calls (initial_state demo_credentials).

(** The Math Club record of [crowded_state]: ten participants for a
    capacity of ten. *)
Definition crowded_math_club : Activity :=
  mkActivity "Solve challenging problems and participate in math competitions"
    "Tuesdays, 3:30 PM - 4:30 PM" 10
    (["james@mergington.edu"; "benjamin@mergington.edu"] ++ crowd).

(** The Chess Club record of the seed database. *)
Definition seed_chess_club : Activity :=
  mkActivity "Learn strategies and compete in chess tournaments"
    "Fridays, 3:30 PM - 5:00 PM" 12
    ["michael@mergington.edu"; "daniel@mergington.edu"].

(** Two entries for one user name. *)
Definition twice_file : TeachersFile :=
  Parsed (JObj {[ "teachers" :=
    JArr [teacher_object (JStr "mr.smith") (JStr "secret");
          teacher_object (JStr "mr.smith") (JStr "changed")] ]}).

(** A valid entry followed by an array element that is not an object. *)
Definition stray_file : TeachersFile :=
  Parsed (JObj {[ "teachers" :=
    JArr [teacher_object (JStr "mr.smith") (JStr "secret"); JStr "oops"] ]}).

(** A password that is a number, after a password that is a string. *)
Definition numeric_file : TeachersFile :=
  Parsed (JObj {[ "teachers" :=
    JArr [teacher_object (JStr "mr.smith") (JStr "secret");
          teacher_object (JStr "mr.smith") (JInt 12345)] ]}).

(** ** The read-only routes *)

(** The JSON object answered by [/auth/status]. *)
Record AuthStatus := mkAuthStatus {
  authenticated : bool;
  status_username : option string
}.

(** [GET /auth/status]; ["authenticated"] is [teacher_username is not None]. *)
Definition auth_status (request : Request) : M AuthStatus :=
  teacher_username ← get_current_teacher request;
  mret (mkAuthStatus
          (match teacher_username with Some _ => true | None => false end)
          teacher_username).

(** [GET /activities]: the whole dictionary, whoever asks. *)
Definition get_activities : M (gmap string Activity) :=
  s ← get_state;
  mret (activities s).

(** The part of an activity record that no handler assigns to. *)
Definition catalog_entry (activity : Activity) : string * string * Z :=
  (description activity, schedule activity, max_participants activity).

(** The token carried by the request's session cookie, if any. *)
Definition presented_token (request : Request) : option string :=
  cookies request !! session_cookie.

(** Every session was opened by [login_teacher]: its token is one the
    random source drew, its user name is in the credential store. *)
Definition sessions_issued (s : State) : Prop :=
  ∀ token u,
    teacher_sessions s !! token = Some u →
    Py.token_urlsafe_32 token ∧ is_Some (teacher_credentials s !! u).

(** A second token and a second teacher for the concrete runs. *)
Definition other_token : string :=
  "Zx8Lw2Qe7Rt4Yu1Io6Pa3Sd9Fg5Hj0KlMnBvCcXzAqW".

Definition staff_file : TeachersFile :=
  Parsed (JObj {[ "teachers" :=
    JArr [teacher_object (JStr "mr.smith") (JStr "secret");
          JObj {[ "password" := JStr "orphan" ]};
          teacher_object (JStr "ms.jones") (JStr "chalk")] ]}).

Definition staff_credentials : PyDict :=
  mkPyDict [(JStr "mr.smith", JStr "secret"); (JStr "ms.jones", JStr "chalk")].

(** Both teachers logged in, each with a token. *)
Definition staff_state : State :=
  run [CallLogin (mkLoginRequest "mr.smith" "secret") demo_token;
       CallLogin (mkLoginRequest "ms.jones" "chalk") other_token]
      (initial_state staff_credentials).

(** Unfolds the operations of the handler monad. *)
Ltac unfold_monad :=
  unfold mbind, M_bind, mret, M_ret, raise, get_state, put_state in *.

(** ** Sanity checks on concrete inputs *)

Example demo_signup_participants :
  participants <$>
    (activities (snd (signup_for_activity "Chess Club" "new@mergington.edu"
                        (request_with demo_token) demo_state)) !! "Chess Club")
  = Some ["michael@mergington.edu"; "daniel@mergington.edu"; "new@mergington.edu"].
Proof. vm_compute. reflexivity. Qed.

Example demo_signup_twice :
  fst (signup_for_activity "Chess Club" "michael@mergington.edu"
         (request_with demo_token) demo_state)
  = Raise (mkHTTPException 400 "Student is already signed up").
Proof. vm_compute. reflexivity. Qed.

Example demo_unregister_participants :
  participants <$>
    (activities (snd (unregister_from_activity "Chess Club" "michael@mergington.edu"
                        (request_with demo_token) demo_state)) !! "Chess Club")
  = Some ["daniel@mergington.edu"].
Proof. vm_compute. reflexivity. Qed.

(** ** Basic facts about the primitives and the monad *)

Lemma truthy_true (s : string) : Py.truthy s = true ↔ s ≠ EmptyString.
Proof. destruct s; simpl; split; intros; congruence. Qed.

Lemma truthy_false (s : string) : Py.truthy s = false ↔ s = EmptyString.
Proof. destruct s; simpl; split; intros; congruence. Qed.

Lemma get_current_teacher_state (request : Request) (s : State) :
  snd (get_current_teacher request s) = s.
Proof.
  unfold get_current_teacher. unfold_monad.
  destruct (cookies request !! session_cookie) as [t|]; [|done].
  by destruct (Py.truthy t).
Qed.

Lemma require_teacher_logged_in (s : State) (request : Request) (teacher : string) :
  logged_in s request teacher →
  require_teacher request s = (Return teacher, s).
Proof.
  intros (token & Hc & Ht & Hs & Hn).
  apply truthy_true in Ht. apply truthy_true in Hn.
  unfold require_teacher, get_current_teacher. unfold_monad.
  by rewrite Hc, Ht, Hs, Hn.
Qed.

Lemma require_teacher_anonymous (s : State) (request : Request) :
  anonymous s request →
  require_teacher request s = (Raise unauthorized, s).
Proof.
  unfold require_teacher, get_current_teacher. unfold_monad.
  intros [Hc | (token & Hc & Hs)]; rewrite Hc; [done|].
  destruct (Py.truthy token); [by rewrite Hs | done].
Qed.

(** The gate either lets a logged-in caller through or raises 401; it
    never touches the globals. *)
Lemma require_teacher_cases (s : State) (request : Request) :
  (∃ teacher, logged_in s request teacher
              ∧ require_teacher request s = (Return teacher, s))
  ∨ ((∀ teacher, ¬ logged_in s request teacher)
     ∧ require_teacher request s = (Raise unauthorized, s)).
Proof.
  unfold require_teacher, get_current_teacher, logged_in. unfold_monad.
  destruct (cookies request !! session_cookie) as [token|] eqn:Hc.
  - destruct (Py.truthy token) eqn:Ht.
    + destruct (teacher_sessions s !! token) as [u|] eqn:Hs.
      * destruct (Py.truthy u) eqn:Hu.
        -- left. exists u. split; [|done].
           exists token. by rewrite <- !truthy_true.
        -- right. split; [|done].
           intros t (token' & [= <-] & _ & Hs' & Hn).
           rewrite Hs in Hs'. injection Hs' as <-.
           apply truthy_true in Hn. congruence.
      * right. split; [|done].
        intros t (token' & [= <-] & _ & Hs' & _). congruence.
    + right. split; [|done].
      intros t (token' & [= <-] & Hn & _).
      apply truthy_true in Hn. congruence.
  - right. split; [|done]. intros t (token' & ? & _). congruence.
Qed.

(** The two protected handlers behind the gate. *)
Lemma signup_for_activity_gate activity_name email request s :
  signup_for_activity activity_name email request s =
  match require_teacher request s with
  | (Raise e, s') => (Raise e, s')
  | (Return _, s') =>
      match activities s' !! activity_name with
      | None => (Raise (mkHTTPException 404 "Activity not found"), s')
      | Some activity =>
          if bool_decide (email ∈ participants activity)
          then (Raise (mkHTTPException 400 "Student is already signed up"), s')
          else (Return (mkResponse
                          [("message",
                            "Signed up " +:+ email +:+ " for " +:+ activity_name)]
                          NoCookie),
                store_activity s' activity_name
                  (with_participants activity (participants activity ++ [email])))
      end
  end.
Proof.
  unfold signup_for_activity. unfold_monad.
  destruct (require_teacher request s) as [[t|e] s']; [|done].
  destruct (activities s' !! activity_name) as [a|]; [|done].
  by destruct (bool_decide (email ∈ participants a)).
Qed.

Lemma unregister_from_activity_gate activity_name email request s :
  unregister_from_activity activity_name email request s =
  match require_teacher request s with
  | (Raise e, s') => (Raise e, s')
  | (Return _, s') =>
      match activities s' !! activity_name with
      | None => (Raise (mkHTTPException 404 "Activity not found"), s')
      | Some activity =>
          if bool_decide (email ∉ participants activity)
          then (Raise (mkHTTPException 400
                         "Student is not signed up for this activity"), s')
          else (Return (mkResponse
                          [("message",
                            "Unregistered " +:+ email +:+ " from " +:+ activity_name)]
                          NoCookie),
                store_activity s' activity_name
                  (with_participants activity
                     (Py.list_remove email (participants activity))))
      end
  end.
Proof.
  unfold unregister_from_activity. unfold_monad.
  destruct (require_teacher request s) as [[t|e] s']; [|done].
  destruct (activities s' !! activity_name) as [a|]; [|done].
  by destruct (bool_decide (email ∉ participants a)).
Qed.

(** ** Facts about [list.remove], [list.count] and membership *)

Lemma list_remove_split (x : string) (l : list string) :
  x ∈ l →
  ∃ l1 l2, l = l1 ++ (x :: l2) ∧ (x ∉ l1) ∧ Py.list_remove x l = l1 ++ l2.
Proof.
  induction l as [|y l IH]; intros Hin.
  - by apply elem_of_nil in Hin.
  - simpl. destruct (decide (x = y)) as [->|Hne].
    + exists [], l. split_and!; [done | apply not_elem_of_nil | done].
    + apply elem_of_cons in Hin as [?|Hin]; [done|].
      destruct (IH Hin) as (l1 & l2 & -> & Hl1 & ->).
      exists (y :: l1), l2. split_and!; [done | | done].
      rewrite not_elem_of_cons. done.
Qed.

Lemma list_remove_absent (x : string) (l : list string) :
  x ∉ l → Py.list_remove x l = l.
Proof.
  induction l as [|y l IH]; [done|]. simpl.
  rewrite not_elem_of_cons. intros [Hne Hl].
  destruct (decide (x = y)); [done|]. by rewrite IH.
Qed.

Lemma list_remove_subseteq (x : string) (l : list string) :
  Py.list_remove x l ⊆ l.
Proof.
  induction l as [|y l IH]; [done|]. simpl.
  destruct (decide (x = y)) as [->|Hne]; intros z Hz.
  - by apply list_elem_of_further.
  - apply elem_of_cons in Hz as [->|Hz]; [by left|].
    apply list_elem_of_further. by apply IH.
Qed.

Lemma list_remove_NoDup (x : string) (l : list string) :
  NoDup l → NoDup (Py.list_remove x l).
Proof.
  induction 1 as [|y l Hy Hl IH]; simpl; [constructor|].
  destruct (decide (x = y)); [done|].
  constructor; [|done].
  intros Hin. apply Hy. by apply (list_remove_subseteq x l).
Qed.

Lemma list_count_absent (x : string) (l : list string) :
  x ∉ l → Py.list_count x l = 0%nat.
Proof.
  induction l as [|y l IH]; [done|]. simpl.
  rewrite not_elem_of_cons. intros [Hne Hl].
  destruct (decide (x = y)); [done|]. by apply IH.
Qed.

Lemma list_count_app (x : string) (l1 l2 : list string) :
  Py.list_count x (l1 ++ l2) = (Py.list_count x l1 + Py.list_count x l2)%nat.
Proof.
  induction l1 as [|y l1 IH]; [done|]. simpl.
  destruct (decide (x = y)); rewrite IH; done.
Qed.

Lemma list_count_append_new (x : string) (l : list string) :
  x ∉ l → Py.list_count x (l ++ [x]) = 1%nat.
Proof.
  intros Hx. rewrite list_count_app, (list_count_absent x l Hx). simpl.
  by destruct (decide (x = x)).
Qed.

Lemma append_NoDup (x : string) (l : list string) :
  NoDup l → x ∉ l → NoDup (l ++ [x]).
Proof.
  intros Hl Hx. apply NoDup_app. split_and!; [done | | apply NoDup_singleton].
  intros y Hy ->%list_elem_of_singleton. done.
Qed.

(** ** What a returning or raising protected call tells about its input *)

Lemma signup_return_inv activity_name email request s response s' :
  signup_for_activity activity_name email request s = (Return response, s') →
  ∃ teacher activity,
    logged_in s request teacher
    ∧ activities s !! activity_name = Some activity
    ∧ (email ∉ participants activity)
    ∧ s' = store_activity s activity_name
             (with_participants activity (participants activity ++ [email])).
Proof.
  rewrite signup_for_activity_gate.
  destruct (require_teacher_cases s request) as [(t & Hin & ->)|[_ ->]]; [|done].
  destruct (activities s !! activity_name) as [a|] eqn:Ha; [|done].
  case_bool_decide as Hmem; [done|].
  intros [= _ <-]. by exists t, a.
Qed.

Lemma unregister_return_inv activity_name email request s response s' :
  unregister_from_activity activity_name email request s = (Return response, s') →
  ∃ teacher activity,
    logged_in s request teacher
    ∧ activities s !! activity_name = Some activity
    ∧ email ∈ participants activity
    ∧ s' = store_activity s activity_name
             (with_participants activity
                (Py.list_remove email (participants activity))).
Proof.
  rewrite unregister_from_activity_gate.
  destruct (require_teacher_cases s request) as [(t & Hin & ->)|[_ ->]]; [|done].
  destruct (activities s !! activity_name) as [a|] eqn:Ha; [|done].
  case_bool_decide as Hmem; [done|].
  intros [= _ <-]. exists t, a. split_and!; [done | done | | done].
  exact Hmem.
Qed.

Lemma signup_raise_state activity_name email request s e s' :
  signup_for_activity activity_name email request s = (Raise e, s') → s' = s.
Proof.
  rewrite signup_for_activity_gate.
  destruct (require_teacher_cases s request) as [(t & _ & ->)|[_ ->]];
    [|congruence].
  destruct (activities s !! activity_name) as [a|]; [|congruence].
  case_bool_decide; congruence.
Qed.

Lemma unregister_raise_state activity_name email request s e s' :
  unregister_from_activity activity_name email request s = (Raise e, s') → s' = s.
Proof.
  rewrite unregister_from_activity_gate.
  destruct (require_teacher_cases s request) as [(t & _ & ->)|[_ ->]];
    [|congruence].
  destruct (activities s !! activity_name) as [a|]; [|congruence].
  case_bool_decide; congruence.
Qed.

Lemma store_activity_lookup s activity_name activity :
  activities (store_activity s activity_name activity) !! activity_name
  = Some activity.
Proof. unfold store_activity. simpl. apply lookup_insert_eq. Qed.

Lemma store_activity_lookup_ne s activity_name activity other :
  other ≠ activity_name →
  activities (store_activity s activity_name activity) !! other
  = activities s !! other.
Proof. intros Hne. unfold store_activity. simpl. by apply lookup_insert_ne. Qed.

(** ** Sign-up *)

(** C1: for an activity in the registry and an email not yet on its
    roster, a sign-up by a logged-in caller returns, and the roster
    afterwards is the old one with the email added at the end.  Nothing
    in the statement looks at [max_participants]: the result is the same
    for a roster that is already full. *)
Theorem signup_appends_email
    (s : State) (activity_name email : string) (request : Request)
    (teacher : string) (activity : Activity) :
  logged_in s request teacher →
  activities s !! activity_name = Some activity →
  email ∉ participants activity →
  ∃ response s',
    signup_for_activity activity_name email request s = (Return response, s')
    ∧ content response
      = [("message", "Signed up " +:+ email +:+ " for " +:+ activity_name)]
    ∧ participants <$> (activities s' !! activity_name)
      = Some (participants activity ++ [email]).
Proof.
  intros Hin Ha Hnew.
  rewrite signup_for_activity_gate, (require_teacher_logged_in _ _ _ Hin), Ha.
  rewrite bool_decide_eq_false_2 by done.
  eexists _, _. split_and!; [done | done |].
  by rewrite store_activity_lookup.
Qed.

(** C3: once a sign-up has returned, the same call made again raises
    400 "Student is already signed up" and leaves the globals, hence the
    roster and its length, as they were; so does the call of any other
    logged-in caller. *)
Theorem repeated_signup_rejected
    (s s' : State) (activity_name email : string) (request : Request)
    (response : Response) :
  signup_for_activity activity_name email request s = (Return response, s') →
  signup_for_activity activity_name email request s'
  = (Raise (mkHTTPException 400 "Student is already signed up"), s')
  ∧ ∀ request' teacher,
      logged_in s' request' teacher →
      signup_for_activity activity_name email request' s'
      = (Raise (mkHTTPException 400 "Student is already signed up"), s').
Proof.
  intros (t & a & Hin & Ha & Hnew & ->)%signup_return_inv.
  assert (Hrepeat : ∀ request' teacher,
    logged_in (store_activity s activity_name
                 (with_participants a (participants a ++ [email])))
              request' teacher →
    signup_for_activity activity_name email request'
      (store_activity s activity_name
         (with_participants a (participants a ++ [email])))
    = (Raise (mkHTTPException 400 "Student is already signed up"),
       store_activity s activity_name
         (with_participants a (participants a ++ [email])))).
  { intros request' teacher Hin'.
    rewrite signup_for_activity_gate, (require_teacher_logged_in _ _ _ Hin').
    rewrite store_activity_lookup. simpl.
    rewrite bool_decide_eq_true_2; [done|].
    apply elem_of_app. right. apply list_elem_of_singleton. done. }
  split; [|done].
  apply (Hrepeat request t). exact Hin.
Qed.

(** C5: a sign-up or unregister request without session cookie, or with
    a token the session table does not know, raises the one 401 of
    [require_teacher] and leaves all globals as they were. *)
Theorem anonymous_mutation_rejected
    (s : State) (activity_name email : string) (request : Request) :
  anonymous s request →
  signup_for_activity activity_name email request s
  = (Raise (mkHTTPException 401
              "Only logged-in teachers can register or unregister students"), s)
  ∧ unregister_from_activity activity_name email request s
    = (Raise (mkHTTPException 401
                "Only logged-in teachers can register or unregister students"), s).
Proof.
  intros Hanon.
  rewrite signup_for_activity_gate, unregister_from_activity_gate.
  by rewrite (require_teacher_anonymous _ _ Hanon).
Qed.

(** ** Unregister *)

(** C4: for an activity in the registry and a logged-in caller,
    unregistering an email that is not on the roster raises 400 and
    leaves all globals as they were; unregistering one that is on it
    returns, and the roster afterwards is the old one without the first
    occurrence of the email. *)
Theorem unregister_removes_email
    (s : State) (activity_name email : string) (request : Request)
    (teacher : string) (activity : Activity) :
  logged_in s request teacher →
  activities s !! activity_name = Some activity →
  (email ∉ participants activity →
   unregister_from_activity activity_name email request s
   = (Raise (mkHTTPException 400 "Student is not signed up for this activity"), s))
  ∧ (email ∈ participants activity →
     ∃ response s' before after,
       unregister_from_activity activity_name email request s
       = (Return response, s')
       ∧ participants activity = before ++ (email :: after)
       ∧ (email ∉ before)
       ∧ participants <$> (activities s' !! activity_name)
         = Some (before ++ after)).
Proof.
  intros Hin Ha.
  rewrite unregister_from_activity_gate, (require_teacher_logged_in _ _ _ Hin), Ha.
  split; intros Hmem.
  - by rewrite bool_decide_eq_true_2.
  - rewrite bool_decide_eq_false_2 by (intros Hno; by apply Hno).
    destruct (list_remove_split email (participants activity) Hmem)
      as (before & after & Hsplit & Hfirst & Hrem).
    eexists _, _, before, after. split_and!; [done | done | done |].
    rewrite store_activity_lookup. simpl. by rewrite Hrem.
Qed.

(** ** Unknown activities *)

(** C2, as the code has it: the gate runs before the registry is looked
    at.  For a name that is not in the registry, sign-up and unregister
    raise 404 "Activity not found" when the caller is logged in, and the
    401 of [require_teacher] when not; the globals stay as they were. *)
Theorem unknown_activity_behind_gate
    (s : State) (activity_name email : string) (request : Request) :
  activities s !! activity_name = None →
  ((∃ teacher, logged_in s request teacher) →
   signup_for_activity activity_name email request s
   = (Raise (mkHTTPException 404 "Activity not found"), s)
   ∧ unregister_from_activity activity_name email request s
     = (Raise (mkHTTPException 404 "Activity not found"), s))
  ∧ ((∀ teacher, ¬ logged_in s request teacher) →
     signup_for_activity activity_name email request s
     = (Raise (mkHTTPException 401
                 "Only logged-in teachers can register or unregister students"), s)
     ∧ unregister_from_activity activity_name email request s
       = (Raise (mkHTTPException 401
                   "Only logged-in teachers can register or unregister students"), s)).
Proof.
  intros Ha.
  rewrite signup_for_activity_gate, unregister_from_activity_gate.
  split.
  - intros [teacher Hin].
    by rewrite (require_teacher_logged_in _ _ _ Hin), Ha.
  - intros Hout.
    destruct (require_teacher_cases s request) as [(t & Hin & _)|[_ ->]]; [|done].
    by destruct (Hout t).
Qed.

(** ** Frame *)

(** C10: a sign-up or unregister that returns changes nothing but the
    roster of the activity it names: the credential store, the session
    table and every other activity are the same before and after, and
    so are the description, schedule and capacity of the activity. *)
Theorem mutation_touches_one_roster
    (s s' : State) (activity_name email : string) (request : Request)
    (response : Response) :
  signup_for_activity activity_name email request s = (Return response, s')
  ∨ unregister_from_activity activity_name email request s = (Return response, s') →
  teacher_credentials s' = teacher_credentials s
  ∧ teacher_sessions s' = teacher_sessions s
  ∧ (∀ other, other ≠ activity_name →
       activities s' !! other = activities s !! other)
  ∧ ∃ old new,
      activities s !! activity_name = Some old
      ∧ activities s' !! activity_name = Some new
      ∧ description new = description old
      ∧ schedule new = schedule old
      ∧ max_participants new = max_participants old.
Proof.
  intros [(t & a & _ & Ha & _ & ->)%signup_return_inv
         |(t & a & _ & Ha & _ & ->)%unregister_return_inv].
  - split_and!; [done | done | |].
    + intros other Hne. by apply store_activity_lookup_ne.
    + eexists a, _. split; [done|]. split; [apply store_activity_lookup|done].
  - split_and!; [done | done | |].
    + intros other Hne. by apply store_activity_lookup_ne.
    + eexists a, _. split; [done|]. split; [apply store_activity_lookup|done].
Qed.

(** ** Start-up and login, step by step *)

Lemma items_get_set (key : Json) (k k0 : PyKey) (v : Json)
    (items : list (Json * Json)) :
  py_key key = Some k →
  items_get k0 (items_set key k v items)
  = if decide (k = k0) then Some v else items_get k0 items.
Proof.
  intros Hkey. induction items as [|[key' v'] items IH]; simpl.
  - rewrite Hkey. destruct (decide (k = k0)) as [->|Hne].
    + by rewrite decide_True.
    + rewrite decide_False; [done | congruence].
  - destruct (decide (py_key key' = Some k)) as [Hsame|Hother]; simpl.
    + destruct (decide (k = k0)) as [->|Hne].
      * by rewrite decide_True.
      * rewrite !decide_False; [done | congruence | congruence].
    + destruct (decide (py_key key' = Some k0)) as [Hk0|Hk0]; [|exact IH].
      rewrite decide_False; [done | congruence].
Qed.


Lemma py_key_str (v : Json) (u : string) :
  py_key v = Some (KStr u) ↔ v = JStr u.
Proof.
  split; [|by intros ->].
  destruct v; simpl; try done. by intros [= ->].
Qed.

Lemma dict_lookup_str (d : PyDict) (u p : string) :
  d !! u = Some p ↔ items_get (KStr u) (py_items d) = Some (JStr p).
Proof.
  unfold lookup, PyDict_lookup, dict_get_str.
  destruct (items_get (KStr u) (py_items d)) as [[]|]; split; congruence.
Qed.

Lemma load_entry_truthy (acc acc' : PyDict) (teacher : Json) :
  load_entry acc teacher = Loaded acc' → dict_truthy acc → dict_truthy acc'.
Proof.
  unfold load_entry. destruct teacher as [| | | | | |fields]; try done.
  destruct (py_truthy (py_field fields "username")) eqn:Hu; simpl;
    [|by intros [= <-]].
  destruct (py_truthy (py_field fields "password")) eqn:Hp; simpl;
    [|by intros [= <-]].
  destruct (py_key (py_field fields "username")) as [k|] eqn:Hk; [|done].
  intros [= <-] Hacc k0 v. simpl. rewrite (items_get_set _ _ _ _ _ Hk).
  case_decide as Heq; [|apply Hacc].
  intros [= <-]. subst k0. split; [done|].
  intros ->. apply py_key_str in Hk. by rewrite Hk in Hu.
Qed.

Lemma load_loop_truthy (teachers : list Json) (acc d : PyDict) :
  load_loop acc teachers = Loaded d → dict_truthy acc → dict_truthy d.
Proof.
  revert acc. induction teachers as [|teacher teachers IH]; intros acc; simpl.
  - by intros [= <-].
  - destruct (load_entry acc teacher) as [acc'| | | | |] eqn:Hentry; try done.
    intros Hloop Hacc. apply (IH acc' Hloop).
    by apply (load_entry_truthy acc acc' teacher).
Qed.

(** What a returning [load_teachers] has gone through. *)
Lemma load_teachers_loaded_inv file credentials :
  load_teachers file = Loaded credentials →
  ∃ fields items,
    file = Some (Parsed (JObj fields))
    ∧ py_iter (default (JArr []) (fields !! "teachers")) = Some items
    ∧ load_loop ∅ items = Loaded credentials
    ∧ py_items credentials ≠ [].
Proof.
  unfold load_teachers.
  destruct file as [[| |[| | | | | |fields]]|]; try done.
  destruct (py_iter (default (JArr []) (fields !! "teachers")))
    as [items|] eqn:Hiter; [|done].
  destruct (load_loop ∅ items) as [d| | | | |] eqn:Hloop; try done.
  destruct (py_items d) as [|item rest] eqn:Hitems; [done|].
  intros [= <-]. exists fields, items. split_and!; try done.
  by rewrite Hitems.
Qed.

Lemma load_teachers_names file credentials :
  load_teachers file = Loaded credentials →
  ∀ u p, credentials !! u = Some p → u ≠ EmptyString ∧ p ≠ EmptyString.
Proof.
  intros (fields & items & _ & _ & Hloop & _)%load_teachers_loaded_inv u p.
  rewrite dict_lookup_str. intros Hget.
  assert (Htruthy : dict_truthy credentials).
  { apply (load_loop_truthy items ∅ credentials Hloop). by intros k v. }
  destruct (Htruthy _ _ Hget) as [Hp Hu]. split.
  - intros ->. done.
  - by apply truthy_true.
Qed.

Lemma load_teachers_nonempty file credentials :
  load_teachers file = Loaded credentials → credentials ≠ ∅.
Proof.
  intros (fields & items & _ & _ & _ & Hne)%load_teachers_loaded_inv ->.
  by apply Hne.
Qed.

Lemma login_teacher_cases (credentials : LoginRequest) (session_token : string)
    (s : State) :
  login_teacher credentials session_token s =
  match teacher_credentials s !! username credentials with
  | Some expected =>
      if Py.truthy expected && bool_decide (expected = password credentials)
      then (Return (mkResponse
                      [("message", "Logged in as " +:+ username credentials);
                       ("username", username credentials)]
                      (SetCookie session_cookie session_token true "lax" 28800)),
            mkState (teacher_credentials s)
                    (<[session_token := username credentials]> (teacher_sessions s))
                    (activities s))
      else (Raise (mkHTTPException 401 "Invalid username or password"), s)
  | None => (Raise (mkHTTPException 401 "Invalid username or password"), s)
  end.
Proof.
  unfold login_teacher. unfold_monad.
  unfold lookup, PyDict_lookup.
  destruct (dict_get_str (teacher_credentials s) (username credentials))
    as [[| | | |expected| |]|]; simpl; try done;
    try (by rewrite orb_true_r).
  destruct (Py.truthy expected); simpl; [|done].
  destruct (decide (expected = password credentials)) as [Heq|Hne].
  - rewrite bool_decide_eq_false_2 by (intros Hno; by apply Hno).
    by rewrite bool_decide_eq_true_2.
  - rewrite bool_decide_eq_true_2 by done.
    by rewrite bool_decide_eq_false_2.
Qed.

Lemma logout_teacher_cases (request : Request) (s : State) :
  logout_teacher request s =
  (Return (mkResponse [("message", "Logged out")] (DeleteCookie session_cookie)),
   match cookies request !! session_cookie with
   | Some session_token =>
       if Py.truthy session_token
       then mkState (teacher_credentials s)
                    (delete session_token (teacher_sessions s))
                    (activities s)
       else s
   | None => s
   end).
Proof.
  unfold logout_teacher. unfold_monad.
  destruct (cookies request !! session_cookie) as [t|]; [|done].
  by destruct (Py.truthy t).
Qed.

(** ** Invariants of the service *)

Lemma seed_rosters_distinct credentials :
  rosters_distinct (initial_state credentials).
Proof.
  intros name a Ha. simpl in Ha. unfold seed_activities in Ha.
  apply elem_of_list_to_map_2 in Ha.
  repeat (apply elem_of_cons in Ha as [[= -> ->]|Ha];
          [apply (bool_decide_unpack _); vm_compute; exact I|]).
  by apply elem_of_nil in Ha.
Qed.

Lemma store_activity_distinct s activity_name activity :
  rosters_distinct s →
  NoDup (participants activity) →
  rosters_distinct (store_activity s activity_name activity).
Proof.
  intros Hs Ha name a. unfold store_activity. simpl.
  rewrite lookup_insert. case_decide; [by intros [= <-]|apply Hs].
Qed.

Lemma step_credentials (s : State) (c : Call) :
  teacher_credentials (step s c) = teacher_credentials s.
Proof.
  unfold step. destruct c as [cr tok|rq|name email rq|name email rq]; simpl.
  - rewrite login_teacher_cases.
    destruct (teacher_credentials s !! username cr) as [e|]; [|done].
    by destruct (Py.truthy e && bool_decide (e = password cr)).
  - rewrite logout_teacher_cases. simpl.
    destruct (cookies rq !! session_cookie) as [t|]; [|done].
    by destruct (Py.truthy t).
  - destruct (signup_for_activity name email rq s) as [[r|e] s'] eqn:Hcall; simpl.
    + by apply signup_return_inv in Hcall as (t & a & _ & _ & _ & ->).
    + by apply signup_raise_state in Hcall as ->.
  - destruct (unregister_from_activity name email rq s) as [[r|e] s'] eqn:Hcall; simpl.
    + by apply unregister_return_inv in Hcall as (t & a & _ & _ & _ & ->).
    + by apply unregister_raise_state in Hcall as ->.
Qed.

Lemma step_rosters_distinct (s : State) (c : Call) :
  rosters_distinct s → rosters_distinct (step s c).
Proof.
  intros Hs. unfold step.
  destruct c as [cr tok|rq|name email rq|name email rq]; simpl.
  - rewrite login_teacher_cases.
    destruct (teacher_credentials s !! username cr) as [e|]; [|done].
    by destruct (Py.truthy e && bool_decide (e = password cr)).
  - rewrite logout_teacher_cases. simpl.
    destruct (cookies rq !! session_cookie) as [t|]; [|done].
    by destruct (Py.truthy t).
  - destruct (signup_for_activity name email rq s) as [[r|e] s'] eqn:Hcall; simpl.
    + apply signup_return_inv in Hcall as (t & a & _ & Ha & Hnew & ->).
      apply store_activity_distinct; [done|]. simpl.
      apply append_NoDup; [by apply (Hs name)|done].
    + by apply signup_raise_state in Hcall as ->.
  - destruct (unregister_from_activity name email rq s) as [[r|e] s'] eqn:Hcall; simpl.
    + apply unregister_return_inv in Hcall as (t & a & _ & Ha & _ & ->).
      apply store_activity_distinct; [done|]. simpl.
      apply list_remove_NoDup. by apply (Hs name).
    + by apply unregister_raise_state in Hcall as ->.
Qed.

Lemma step_names_nonempty (s : State) (c : Call) :
  well_formed_call c → names_nonempty s → names_nonempty (step s c).
Proof.
  intros Hwf [Hc Hs]. unfold step.
  destruct c as [cr tok|rq|name email rq|name email rq]; simpl.
  - rewrite login_teacher_cases.
    destruct (teacher_credentials s !! username cr) as [e|] eqn:He; [|done].
    destruct (Py.truthy e && bool_decide (e = password cr)); [|done].
    split; [done|]. simpl. intros token u.
    rewrite lookup_insert. case_decide as Heq; [|apply Hs].
    intros [= <-]. subst token. split; [|by destruct (Hc _ _ He)].
    intros ->. done.
  - rewrite logout_teacher_cases. simpl.
    destruct (cookies rq !! session_cookie) as [t|]; [|done].
    destruct (Py.truthy t); [|done].
    split; [done|]. simpl. intros token u.
    rewrite lookup_delete. case_decide; [done|apply Hs].
  - destruct (signup_for_activity name email rq s) as [[r|e] s'] eqn:Hcall; simpl.
    + by apply signup_return_inv in Hcall as (t & a & _ & _ & _ & ->).
    + by apply signup_raise_state in Hcall as ->.
  - destruct (unregister_from_activity name email rq s) as [[r|e] s'] eqn:Hcall; simpl.
    + by apply unregister_return_inv in Hcall as (t & a & _ & _ & _ & ->).
    + by apply unregister_raise_state in Hcall as ->.
Qed.

Lemma run_snoc (calls : list Call) (c : Call) (s : State) :
  run (calls ++ [c]) s = step (run calls s) c.
Proof. unfold run. by rewrite foldl_app. Qed.

Lemma reachable_invariants (s : State) :
  reachable s → rosters_distinct s ∧ names_nonempty s.
Proof.
  intros (file & credentials & calls & Hload & Hwf & ->).
  induction calls as [|c calls IH] using rev_ind.
  - split; [apply seed_rosters_distinct|].
    split; simpl; [by apply (load_teachers_names file)|].
    intros token u. by rewrite lookup_empty.
  - apply Forall_app in Hwf as [Hwf Hc]. rewrite Forall_singleton in Hc.
    rewrite run_snoc. destruct (IH Hwf) as [Hd Hn].
    split; [by apply step_rosters_distinct | by apply step_names_nonempty].
Qed.

(** C6: in every state the service can reach, whatever requests were
    served, each roster lists pairwise-distinct emails; and a sign-up
    that returns leaves its email exactly once on the roster. *)
Theorem rosters_have_no_duplicate (s : State) :
  reachable s →
  rosters_distinct s
  ∧ ∀ activity_name email request response s',
      signup_for_activity activity_name email request s = (Return response, s') →
      ∃ activity,
        activities s' !! activity_name = Some activity
        ∧ NoDup (participants activity)
        ∧ Py.list_count email (participants activity) = 1%nat.
Proof.
  intros Hreach.
  destruct (reachable_invariants s Hreach) as [Hd _].
  split; [done|].
  intros name email rq r s' (t & a & _ & Ha & Hnew & ->)%signup_return_inv.
  eexists. split; [apply store_activity_lookup|]. simpl. split.
  - apply append_NoDup; [by apply (Hd name)|done].
  - by apply list_count_append_new.
Qed.

(** ** Login and logout *)

Lemma token_urlsafe_32_nonempty (t : string) :
  Py.token_urlsafe_32 t → t ≠ EmptyString.
Proof. intros Hlen ->. discriminate Hlen. Qed.

(** C7: in a running service, a login whose user name and password are
    a pair of the credential store returns, sets the session cookie to
    the token drawn, and maps that token to the user name in the session
    table, so that a protected request presenting it passes the gate;
    a token that was not in the table leaves every earlier session in
    place.  A login whose user name is not in the store, or whose
    password differs from the stored one, raises 401 and leaves all
    globals, hence the session table, as they were. *)
Theorem login_opens_session (s : State) (u p session_token : string) :
  reachable s →
  Py.token_urlsafe_32 session_token →
  (teacher_credentials s !! u = Some p →
   ∃ response s',
     login_teacher (mkLoginRequest u p) session_token s = (Return response, s')
     ∧ cookie_action response
       = SetCookie session_cookie session_token true "lax" 28800
     ∧ teacher_sessions s' = <[session_token := u]> (teacher_sessions s)
     ∧ teacher_credentials s' = teacher_credentials s
     ∧ activities s' = activities s
     ∧ (∀ request,
          cookies request !! session_cookie = Some session_token →
          require_teacher request s' = (Return u, s'))
     ∧ (teacher_sessions s !! session_token = None →
        teacher_sessions s ⊆ teacher_sessions s'))
  ∧ (teacher_credentials s !! u = None
     ∨ (∃ stored, teacher_credentials s !! u = Some stored ∧ stored ≠ p) →
     login_teacher (mkLoginRequest u p) session_token s
     = (Raise (mkHTTPException 401 "Invalid username or password"), s)).
Proof.
  intros Hreach Htoken.
  destruct (reachable_invariants s Hreach) as [_ [Hnames _]].
  rewrite login_teacher_cases. simpl. split.
  - intros Hpair. rewrite Hpair.
    destruct (Hnames u p Hpair) as [Hu Hp].
    apply truthy_true in Hp. rewrite Hp, bool_decide_eq_true_2 by done. simpl.
    eexists _, _. split_and!; try done.
    + intros request Hcookie. apply require_teacher_logged_in.
      exists session_token. split_and!; [done | | | done].
      * by apply token_urlsafe_32_nonempty.
      * simpl. apply lookup_insert_eq.
    + intros Hfresh. simpl. by apply insert_subseteq.
  - intros [Habsent | (stored & Hstored & Hdiff)].
    + by rewrite Habsent.
    + rewrite Hstored, (bool_decide_eq_false_2 _ Hdiff).
      by rewrite andb_false_r.
Qed.

(** C8: in a running service a logout always returns; the session
    table afterwards is the old one without the mapping of the cookie's
    token (the old one itself when there is no cookie or no such
    mapping), a second logout changes nothing more, and every protected
    request presenting the same cookie is then turned away with 401. *)
Theorem logout_closes_session (s : State) (request : Request) :
  reachable s →
  ∃ response s',
    logout_teacher request s = (Return response, s')
    ∧ cookie_action response = DeleteCookie session_cookie
    ∧ teacher_sessions s'
      = match cookies request !! session_cookie with
        | Some token => delete token (teacher_sessions s)
        | None => teacher_sessions s
        end
    ∧ (∀ token, cookies request !! session_cookie = Some token →
         teacher_sessions s !! token = None → s' = s)
    ∧ (cookies request !! session_cookie = None → s' = s)
    ∧ logout_teacher request s' = (Return response, s')
    ∧ ∀ request' activity_name email,
        cookies request' !! session_cookie = cookies request !! session_cookie →
        require_teacher request' s' = (Raise unauthorized, s')
        ∧ signup_for_activity activity_name email request' s'
          = (Raise unauthorized, s')
        ∧ unregister_from_activity activity_name email request' s'
          = (Raise unauthorized, s').
Proof.
  intros Hreach.
  destruct (reachable_invariants s Hreach) as [_ [_ Htokens]].
  assert (Hempty : teacher_sessions s !! EmptyString = None).
  { destruct (teacher_sessions s !! EmptyString) as [u|] eqn:Hu; [|done].
    by destruct (Htokens _ _ Hu) as [Hno _]. }
  assert (Hanon : ∀ s0 request',
    anonymous s0 request' →
    ∀ activity_name email,
      require_teacher request' s0 = (Raise unauthorized, s0)
      ∧ signup_for_activity activity_name email request' s0
        = (Raise unauthorized, s0)
      ∧ unregister_from_activity activity_name email request' s0
        = (Raise unauthorized, s0)).
  { intros s0 request' Ha name email.
    rewrite signup_for_activity_gate, unregister_from_activity_gate.
    by rewrite (require_teacher_anonymous _ _ Ha). }
  rewrite logout_teacher_cases.
  destruct s as [creds sessions acts]. simpl in *.
  destruct (cookies request !! session_cookie) as [token|] eqn:Hcookie.
  - destruct (Py.truthy token) eqn:Htruthy.
    + eexists _, _. split; [done|]. simpl. split_and!; try done.
      * intros token' [= <-] Hnone. by rewrite delete_id.
      * rewrite logout_teacher_cases, Hcookie, Htruthy. simpl.
        by rewrite delete_delete_eq.
      * intros request' name email Hsame. apply Hanon.
        right. exists token. split; [done|]. simpl. apply lookup_delete_eq.
    + apply truthy_false in Htruthy. subst token.
      eexists _, _. split; [done|]. simpl. split_and!; try done.
      * by rewrite delete_id.
      * by rewrite logout_teacher_cases, Hcookie.
      * intros request' name email Hsame. apply Hanon.
        right. exists EmptyString. done.
  - eexists _, _. split; [done|]. simpl. split_and!; try done.
    + by rewrite logout_teacher_cases, Hcookie.
    + intros request' name email Hsame. apply Hanon. by left.
Qed.

(** ** Credential loading *)

Lemma valid_entry_cases (teacher : Json) :
  valid_entry teacher ∨ ¬ valid_entry teacher.
Proof.
  unfold valid_entry.
  destruct (py_truthy (entry_username teacher)) eqn:Hu;
    [|right; by intros (_ & ? & _)].
  destruct (py_truthy (entry_password teacher)) eqn:Hp;
    [|right; by intros (_ & _ & ?)].
  destruct teacher; try (right; by intros ([? ?] & _)).
  left. split; [by eexists|done].
Qed.

Lemma load_entry_valid (acc : PyDict) (teacher : Json) (k : PyKey) :
  valid_entry teacher →
  py_key (entry_username teacher) = Some k →
  load_entry acc teacher
  = Loaded (mkPyDict (items_set (entry_username teacher) k
                        (entry_password teacher) (py_items acc))).
Proof.
  intros ([fields ->] & Hu & Hp) Hk. simpl in *. unfold load_entry.
  by rewrite Hu, Hp, Hk.
Qed.

Lemma load_entry_unhashable (acc : PyDict) (teacher : Json) :
  valid_entry teacher →
  py_key (entry_username teacher) = None →
  load_entry acc teacher = TypeError.
Proof.
  intros ([fields ->] & Hu & Hp) Hk. simpl in *. unfold load_entry.
  by rewrite Hu, Hp, Hk.
Qed.

Lemma load_entry_skip (acc : PyDict) (teacher : Json) :
  is_object teacher → ¬ valid_entry teacher → load_entry acc teacher = Loaded acc.
Proof.
  intros [fields ->] Hno. unfold load_entry.
  destruct (py_truthy (py_field fields "username")) eqn:Hu; [|done].
  destruct (py_truthy (py_field fields "password")) eqn:Hp; [|done].
  destruct Hno. split; [by eexists|done].
Qed.

Lemma load_entry_stray (acc : PyDict) (teacher : Json) :
  ¬ is_object teacher → load_entry acc teacher = AttributeError.
Proof.
  intros Hno. destruct teacher; try done. destruct Hno. by eexists.
Qed.

Lemma load_entry_loaded_sound (acc acc' : PyDict) (teacher : Json) :
  load_entry acc teacher = Loaded acc' → sound_entry teacher.
Proof.
  intros Hentry.
  assert (Hobj : is_object teacher).
  { destruct teacher; try done. by eexists. }
  split; [done|]. intros Hv.
  destruct (py_key (entry_username teacher)) as [k|] eqn:Hk; [by eexists|].
  by rewrite (load_entry_unhashable _ _ Hv Hk) in Hentry.
Qed.

Lemma load_loop_snoc (acc : PyDict) (teachers : list Json) (teacher : Json) :
  load_loop acc (teachers ++ [teacher])
  = match load_loop acc teachers with
    | Loaded d => load_entry d teacher
    | raised => raised
    end.
Proof.
  revert acc. induction teachers as [|t teachers IH]; intros acc; simpl.
  - by destruct (load_entry acc teacher).
  - destruct (load_entry acc t) as [acc'| | | | |]; [apply IH | done..].
Qed.

Lemma load_loop_app_raise (acc : PyDict) (before after : list Json) :
  (∀ d, load_loop acc before ≠ Loaded d) →
  load_loop acc (before ++ after) = load_loop acc before.
Proof.
  revert acc. induction before as [|t before IH]; intros acc Hraise; simpl in *.
  - by destruct (Hraise acc).
  - destruct (load_entry acc t) as [acc'| | | | |]; [by apply IH | done..].
Qed.

(** The loop gets through exactly the lists of sound entries. *)
Lemma load_loop_sound (teachers : list Json) (acc : PyDict) :
  (∃ d, load_loop acc teachers = Loaded d) ↔ Forall sound_entry teachers.
Proof.
  revert acc. induction teachers as [|t teachers IH]; intros acc; simpl.
  - split; [constructor | by eexists].
  - split.
    + intros [d Hloop].
      destruct (load_entry acc t) as [acc'| | | | |] eqn:Hentry; try done.
      constructor; [by apply (load_entry_loaded_sound acc acc')|].
      apply (IH acc'). by exists d.
    + intros [[Hobj Hkey] Hrest]%Forall_cons.
      destruct (valid_entry_cases t) as [Hv|Hno].
      * destruct (Hkey Hv) as [k Hk].
        rewrite (load_entry_valid _ _ _ Hv Hk). by apply IH.
      * rewrite (load_entry_skip _ _ Hobj Hno). by apply IH.
Qed.


(** Splitting a list that ends in [x] at one of its elements. *)
Lemma snoc_split {A : Type} (l before after : list A) (x y : A) :
  l ++ [x] = before ++ (y :: after) →
  (after = [] ∧ before = l ∧ y = x)
  ∨ ∃ after', after = after' ++ [x] ∧ l = before ++ (y :: after').
Proof.
  destruct after as [|z after] using rev_ind.
  - intros Heq. left. apply app_inj_tail in Heq as [-> ->]. done.
  - intros Heq. right. exists after.
    change (before ++ y :: after ++ [z]) with (before ++ (y :: after) ++ [z]) in Heq.
    rewrite app_assoc in Heq. apply app_inj_tail in Heq as [-> ->]. done.
Qed.

(** The dictionary built by the loop maps a key to the password of the
    last valid entry whose user name is that key. *)
Lemma load_loop_lookup (teachers : list Json) (d : PyDict) (k : PyKey) (v : Json) :
  load_loop ∅ teachers = Loaded d →
  items_get k (py_items d) = Some v
  ↔ ∃ before teacher after,
      teachers = before ++ (teacher :: after)
      ∧ valid_entry teacher
      ∧ py_key (entry_username teacher) = Some k
      ∧ entry_password teacher = v
      ∧ ∀ later, later ∈ after → valid_entry later →
                 py_key (entry_username later) ≠ Some k.
Proof.
  revert d. induction teachers as [|last teachers IH] using rev_ind; intros d.
  - intros [= <-]. simpl. split; [done|].
    intros (before & t & after & Heq & _). by destruct before.
  - rewrite load_loop_snoc.
    destruct (load_loop ∅ teachers) as [d0| | | | |] eqn:Hloop; try done.
    intros Hentry. specialize (IH d0 eq_refl).
    pose proof (load_entry_loaded_sound _ _ _ Hentry) as [Hobj Hkey].
    destruct (valid_entry_cases last) as [Hv|Hno].
    + destruct (Hkey Hv) as [k0 Hk0].
      rewrite (load_entry_valid _ _ _ Hv Hk0) in Hentry. injection Hentry as <-.
      simpl. rewrite (items_get_set _ _ _ _ _ Hk0).
      case_decide as Heq.
      * subst k0. split.
        -- intros [= <-]. exists teachers, last, [].
           split_and!; [done | done | done | done |].
           intros later Hin. by apply elem_of_nil in Hin.
        -- intros (before & t & after & Hsplit & Hvt & Hkt & Hpt & Hlater).
           apply snoc_split in Hsplit
             as [(-> & -> & ->)|(after' & -> & ->)]; [by rewrite Hpt|].
           destruct (Hlater last); [|done|done].
           apply elem_of_app. right. by apply list_elem_of_singleton.
      * rewrite IH. split.
        -- intros (before & t & after & -> & Hvt & Hkt & Hpt & Hlater).
           exists before, t, (after ++ [last]). split_and!; [|done|done|done|].
           ++ by rewrite <- app_assoc.
           ++ intros later [Hin | ->%list_elem_of_singleton]%elem_of_app.
              ** by apply Hlater.
              ** intros _. congruence.
        -- intros (before & t & after & Hsplit & Hvt & Hkt & Hpt & Hlater).
           apply snoc_split in Hsplit
             as [(-> & -> & ->)|(after' & -> & ->)]; [congruence|].
           exists before, t, after'. split_and!; [done | done | done | done |].
           intros later Hin. apply Hlater, elem_of_app. by left.
    + rewrite (load_entry_skip _ _ Hobj Hno) in Hentry. injection Hentry as <-.
      rewrite IH. split.
      * intros (before & t & after & -> & Hvt & Hkt & Hpt & Hlater).
        exists before, t, (after ++ [last]). split_and!; [|done|done|done|].
        -- by rewrite <- app_assoc.
        -- intros later [Hin | ->%list_elem_of_singleton]%elem_of_app.
           ++ by apply Hlater.
           ++ done.
      * intros (before & t & after & Hsplit & Hvt & Hkt & Hpt & Hlater).
        apply snoc_split in Hsplit as [(-> & -> & ->)|(after' & -> & ->)]; [done|].
        exists before, t, after'. split_and!; [done | done | done | done |].
        intros later Hin. apply Hlater, elem_of_app. by left.
Qed.


(** ** The theorems at concrete inputs *)

Lemma demo_state_reachable : reachable demo_state.
Proof.
  exists (Some demo_file), demo_credentials, [demo_login].
  split_and!; [vm_compute; reflexivity | | reflexivity].
  repeat constructor.
Qed.

Lemma crowded_state_reachable : reachable crowded_state.
Proof.
  exists (Some demo_file), demo_credentials, crowd_calls.
  split_and!; [vm_compute; reflexivity | | reflexivity].
  repeat constructor.
Qed.

Lemma demo_logged_in (s : State) :
  teacher_sessions s !! demo_token = Some "mr.smith" →
  logged_in s (request_with demo_token) "mr.smith".
Proof.
  intros Hs. exists demo_token.
  split_and!; [vm_compute; reflexivity | discriminate | exact Hs | discriminate].
Qed.

(** Sign-up on a roster that is already at capacity. *)
Lemma signup_appends_email_witness :
  Z.of_nat (length (participants crowded_math_club))
  = max_participants crowded_math_club
  ∧ ∃ response s',
      signup_for_activity "Math Club" "late@mergington.edu"
        (request_with demo_token) crowded_state = (Return response, s')
      ∧ content response
        = [("message", "Signed up " +:+ "late@mergington.edu" +:+ " for " +:+ "Math Club")]
      ∧ participants <$> (activities s' !! "Math Club")
        = Some (participants crowded_math_club ++ ["late@mergington.edu"]).
Proof.
  split; [reflexivity|].
  apply (signup_appends_email crowded_state "Math Club" "late@mergington.edu"
           (request_with demo_token) "mr.smith" crowded_math_club).
  - apply demo_logged_in. vm_compute. reflexivity.
  - vm_compute. reflexivity.
  - apply (bool_decide_unpack _). vm_compute. exact I.
Defined.

(** C2 as stated fails: for a name that is not in the registry, a
    request without session cookie is answered 401 by the gate, not 404,
    on both routes. *)
Lemma unknown_activity_not_always_404 :
  activities demo_state !! "Knitting Circle" = None
  ∧ (∃ e, signup_for_activity "Knitting Circle" "new@mergington.edu"
            request_without demo_state = (Raise e, demo_state)
          ∧ status_code e = 401 ∧ status_code e ≠ 404)
  ∧ (∃ e, unregister_from_activity "Knitting Circle" "new@mergington.edu"
            request_without demo_state = (Raise e, demo_state)
          ∧ status_code e = 401 ∧ status_code e ≠ 404).
Proof.
  split; [vm_compute; reflexivity|].
  split; exists unauthorized; (split; [vm_compute; reflexivity|]);
    split; [reflexivity | discriminate | reflexivity | discriminate].
Qed.

Lemma unknown_activity_behind_gate_witness :
  activities demo_state !! "Knitting Circle" = None
  ∧ signup_for_activity "Knitting Circle" "new@mergington.edu"
      (request_with demo_token) demo_state
    = (Raise (mkHTTPException 404 "Activity not found"), demo_state)
  ∧ unregister_from_activity "Knitting Circle" "new@mergington.edu"
      request_without demo_state
    = (Raise (mkHTTPException 401
                "Only logged-in teachers can register or unregister students"),
       demo_state).
Proof.
  assert (Hunknown : activities demo_state !! "Knitting Circle" = None)
    by (vm_compute; reflexivity).
  split; [exact Hunknown|]. split.
  - apply (unknown_activity_behind_gate demo_state "Knitting Circle"
             "new@mergington.edu" (request_with demo_token) Hunknown).
    exists "mr.smith". apply demo_logged_in. vm_compute. reflexivity.
  - apply (unknown_activity_behind_gate demo_state "Knitting Circle"
             "new@mergington.edu" request_without Hunknown).
    intros teacher (token & Hcookie & _). vm_compute in Hcookie. discriminate.
Defined.

Lemma repeated_signup_rejected_witness :
  signup_for_activity "Chess Club" "new@mergington.edu"
    (request_with demo_token) demo_state
  = (Return (mkResponse
               [("message", "Signed up new@mergington.edu for Chess Club")]
               NoCookie),
     store_activity demo_state "Chess Club"
       (with_participants seed_chess_club
          (participants seed_chess_club ++ ["new@mergington.edu"])))
  ∧ signup_for_activity "Chess Club" "new@mergington.edu"
      (request_with demo_token)
      (store_activity demo_state "Chess Club"
         (with_participants seed_chess_club
            (participants seed_chess_club ++ ["new@mergington.edu"])))
    = (Raise (mkHTTPException 400 "Student is already signed up"),
       store_activity demo_state "Chess Club"
         (with_participants seed_chess_club
            (participants seed_chess_club ++ ["new@mergington.edu"]))).
Proof.
  assert (Hfirst :
    signup_for_activity "Chess Club" "new@mergington.edu"
      (request_with demo_token) demo_state
    = (Return (mkResponse
                 [("message", "Signed up new@mergington.edu for Chess Club")]
                 NoCookie),
       store_activity demo_state "Chess Club"
         (with_participants seed_chess_club
            (participants seed_chess_club ++ ["new@mergington.edu"]))))
    by (vm_compute; reflexivity).
  split; [exact Hfirst|].
  exact (proj1 (repeated_signup_rejected _ _ _ _ _ _ Hfirst)).
Defined.

Lemma unregister_removes_email_witness :
  unregister_from_activity "Chess Club" "nobody@mergington.edu"
    (request_with demo_token) demo_state
  = (Raise (mkHTTPException 400 "Student is not signed up for this activity"),
     demo_state)
  ∧ ∃ response s' before after,
      unregister_from_activity "Chess Club" "daniel@mergington.edu"
        (request_with demo_token) demo_state = (Return response, s')
      ∧ participants seed_chess_club = before ++ ("daniel@mergington.edu" :: after)
      ∧ ("daniel@mergington.edu" ∉ before)
      ∧ participants <$> (activities s' !! "Chess Club") = Some (before ++ after).
Proof.
  assert (Hin : logged_in demo_state (request_with demo_token) "mr.smith")
    by (apply demo_logged_in; vm_compute; reflexivity).
  assert (Ha : activities demo_state !! "Chess Club" = Some seed_chess_club)
    by (vm_compute; reflexivity).
  split.
  - apply (proj1 (unregister_removes_email demo_state "Chess Club"
                    "nobody@mergington.edu" _ _ _ Hin Ha)).
    apply (bool_decide_unpack _). vm_compute. exact I.
  - apply (proj2 (unregister_removes_email demo_state "Chess Club"
                    "daniel@mergington.edu" _ _ _ Hin Ha)).
    apply (bool_decide_unpack _). vm_compute. exact I.
Defined.

Lemma anonymous_mutation_rejected_witness :
  anonymous demo_state request_without
  ∧ anonymous demo_state (request_with "forged")
  ∧ signup_for_activity "Chess Club" "new@mergington.edu" request_without demo_state
    = (Raise (mkHTTPException 401
                "Only logged-in teachers can register or unregister students"),
       demo_state)
  ∧ unregister_from_activity "Chess Club" "daniel@mergington.edu"
      (request_with "forged") demo_state
    = (Raise (mkHTTPException 401
                "Only logged-in teachers can register or unregister students"),
       demo_state).
Proof.
  assert (Hno : anonymous demo_state request_without)
    by (left; vm_compute; reflexivity).
  assert (Hforged : anonymous demo_state (request_with "forged"))
    by (right; exists "forged"; split; vm_compute; reflexivity).
  split; [exact Hno|]. split; [exact Hforged|]. split.
  - exact (proj1 (anonymous_mutation_rejected demo_state "Chess Club"
                    "new@mergington.edu" request_without Hno)).
  - exact (proj2 (anonymous_mutation_rejected demo_state "Chess Club"
                    "daniel@mergington.edu" (request_with "forged") Hforged)).
Defined.

Lemma rosters_have_no_duplicate_witness :
  reachable crowded_state ∧ rosters_distinct crowded_state.
Proof.
  split; [exact crowded_state_reachable|].
  exact (proj1 (rosters_have_no_duplicate crowded_state crowded_state_reachable)).
Defined.

Lemma initial_state_reachable : reachable (initial_state demo_credentials).
Proof.
  exists (Some demo_file), demo_credentials, [].
  split_and!; [vm_compute; reflexivity | constructor | reflexivity].
Qed.

Lemma login_opens_session_witness :
  (∃ response s',
     login_teacher (mkLoginRequest "mr.smith" "secret") demo_token
       (initial_state demo_credentials) = (Return response, s')
     ∧ teacher_sessions s' = {[ demo_token := "mr.smith" ]}
     ∧ require_teacher (request_with demo_token) s' = (Return "mr.smith", s'))
  ∧ login_teacher (mkLoginRequest "mr.smith" "guess") demo_token
      (initial_state demo_credentials)
    = (Raise (mkHTTPException 401 "Invalid username or password"),
       initial_state demo_credentials)
  ∧ login_teacher (mkLoginRequest "ghost" "secret") demo_token
      (initial_state demo_credentials)
    = (Raise (mkHTTPException 401 "Invalid username or password"),
       initial_state demo_credentials).
Proof.
  assert (Htoken : Py.token_urlsafe_32 demo_token) by reflexivity.
  split; [|split].
  - destruct (proj1 (login_opens_session (initial_state demo_credentials)
                       "mr.smith" "secret" demo_token
                       initial_state_reachable Htoken))
      as (response & s' & Hcall & _ & Hsessions & _ & _ & Hgate & _).
    + vm_compute. reflexivity.
    + exists response, s'. split; [exact Hcall|]. split.
      * rewrite Hsessions. reflexivity.
      * apply Hgate. vm_compute. reflexivity.
  - apply (proj2 (login_opens_session (initial_state demo_credentials)
                    "mr.smith" "guess" demo_token
                    initial_state_reachable Htoken)).
    right. exists "secret". split; [vm_compute; reflexivity | discriminate].
  - apply (proj2 (login_opens_session (initial_state demo_credentials)
                    "ghost" "secret" demo_token
                    initial_state_reachable Htoken)).
    left. vm_compute. reflexivity.
Defined.

Lemma logout_closes_session_witness :
  reachable demo_state
  ∧ ∃ response s',
      logout_teacher (request_with demo_token) demo_state = (Return response, s')
      ∧ teacher_sessions s' = ∅
      ∧ signup_for_activity "Chess Club" "new@mergington.edu"
          (request_with demo_token) s' = (Raise unauthorized, s').
Proof.
  split; [exact demo_state_reachable|].
  destruct (logout_closes_session demo_state (request_with demo_token)
              demo_state_reachable)
    as (response & s' & Hcall & _ & Hsessions & _ & _ & _ & Hafter).
  exists response, s'. split; [exact Hcall|]. split.
  - rewrite Hsessions. vm_compute. reflexivity.
  - apply (Hafter (request_with demo_token) "Chess Club" "new@mergington.edu").
    reflexivity.
Defined.



Lemma mutation_touches_one_roster_witness :
  signup_for_activity "Chess Club" "new@mergington.edu"
    (request_with demo_token) demo_state
  = (Return (mkResponse
               [("message", "Signed up new@mergington.edu for Chess Club")]
               NoCookie),
     store_activity demo_state "Chess Club"
       (with_participants seed_chess_club
          (participants seed_chess_club ++ ["new@mergington.edu"])))
  ∧ teacher_sessions
      (store_activity demo_state "Chess Club"
         (with_participants seed_chess_club
            (participants seed_chess_club ++ ["new@mergington.edu"])))
    = teacher_sessions demo_state
  ∧ activities
      (store_activity demo_state "Chess Club"
         (with_participants seed_chess_club
            (participants seed_chess_club ++ ["new@mergington.edu"])))
      !! "Math Club"
    = activities demo_state !! "Math Club".
Proof.
  assert (Hcall :
    signup_for_activity "Chess Club" "new@mergington.edu"
      (request_with demo_token) demo_state
    = (Return (mkResponse
                 [("message", "Signed up new@mergington.edu for Chess Club")]
                 NoCookie),
       store_activity demo_state "Chess Club"
         (with_participants seed_chess_club
            (participants seed_chess_club ++ ["new@mergington.edu"]))))
    by (vm_compute; reflexivity).
  split; [exact Hcall|].
  destruct (mutation_touches_one_roster _ _ _ _ _ _ (or_introl Hcall))
    as (_ & Hs & Hother & _).
  split; [exact Hs|]. apply Hother. discriminate.
Defined.

(** ** Further properties of the handlers *)

Lemma get_current_teacher_eq (request : Request) (s : State) :
  get_current_teacher request s
  = (Return match cookies request !! session_cookie with
            | Some token =>
                if Py.truthy token then teacher_sessions s !! token else None
            | None => None
            end, s).
Proof.
  unfold get_current_teacher. unfold_monad.
  destruct (cookies request !! session_cookie) as [t|]; [|done].
  by destruct (Py.truthy t).
Qed.

(** Induction over the requests served since start-up. *)
Lemma reachable_induction (P : State → Prop) :
  (∀ file credentials,
     load_teachers file = Loaded credentials → P (initial_state credentials)) →
  (∀ s c, reachable s → well_formed_call c → P s → P (step s c)) →
  ∀ s, reachable s → P s.
Proof.
  intros Hinit Hstep s (file & credentials & calls & Hload & Hwf & ->).
  induction calls as [|c calls IH] using rev_ind.
  - by apply (Hinit file).
  - apply Forall_app in Hwf as [Hwf Hc]. rewrite Forall_singleton in Hc.
    rewrite run_snoc. apply Hstep; [|done|by apply IH].
    by exists file, credentials, calls.
Qed.

Lemma login_raise_state credentials session_token s e s' :
  login_teacher credentials session_token s = (Raise e, s') →
  s' = s ∧ e = mkHTTPException 401 "Invalid username or password".
Proof.
  rewrite login_teacher_cases.
  destruct (teacher_credentials s !! username credentials) as [x|];
    [|by intros [= <- <-]].
  destruct (Py.truthy x && bool_decide (x = password credentials));
    [done | by intros [= <- <-]].
Qed.

(** X1: a request that is answered with an error has changed nothing:
    whichever of the four handlers raises, the globals after the call
    are the globals before it. *)
Theorem failed_call_changes_nothing (c : Call) (s s' : State) (e : HTTPException) :
  handle c s = (Raise e, s') → s' = s.
Proof.
  destruct c as [cr tok|rq|name email rq|name email rq]; simpl.
  - by intros [-> _]%login_raise_state.
  - by rewrite logout_teacher_cases.
  - apply signup_raise_state.
  - apply unregister_raise_state.
Qed.

(** X2: the only errors the handlers raise are 400, 401 and 404; login
    raises nothing but 401 and logout raises nothing at all. *)
Theorem raised_status_codes (c : Call) (s s' : State) (e : HTTPException) :
  handle c s = (Raise e, s') →
  match c with
  | CallLogin _ _ => status_code e = 401
  | CallLogout _ => False
  | CallSignup _ _ _ | CallUnregister _ _ _ =>
      status_code e = 401 ∨ status_code e = 404 ∨ status_code e = 400
  end.
Proof.
  destruct c as [cr tok|rq|name email rq|name email rq]; simpl.
  - by intros [_ ->]%login_raise_state.
  - by rewrite logout_teacher_cases.
  - rewrite signup_for_activity_gate.
    destruct (require_teacher_cases s rq) as [(t & _ & ->)|[_ ->]].
    + destruct (activities s !! name) as [a|];
        [|intros [= <- _]; right; by left].
      case_bool_decide; [|done]. intros [= <- _]. right. by right.
    + intros [= <- _]. by left.
  - rewrite unregister_from_activity_gate.
    destruct (require_teacher_cases s rq) as [(t & _ & ->)|[_ ->]].
    + destruct (activities s !! name) as [a|];
        [|intros [= <- _]; right; by left].
      case_bool_decide; [|done]. intros [= <- _]. right. by right.
    + intros [= <- _]. by left.
Qed.

Lemma run_credentials (calls : list Call) (s : State) :
  teacher_credentials (run calls s) = teacher_credentials s.
Proof.
  induction calls as [|c calls IH] using rev_ind; [done|].
  by rewrite run_snoc, step_credentials.
Qed.

(** X3: the credential store is read-only after start-up: in every
    state of the running service it is the dictionary [load_teachers]
    returned, so it is not empty and holds no empty user name or
    password. *)
Theorem credentials_never_change (file : option TeachersFile)
    (credentials : PyDict) (calls : list Call) :
  load_teachers file = Loaded credentials →
  teacher_credentials (run calls (initial_state credentials)) = credentials
  ∧ credentials ≠ ∅
  ∧ ∀ u p, credentials !! u = Some p → u ≠ EmptyString ∧ p ≠ EmptyString.
Proof.
  intros Hload. split; [apply run_credentials|].
  split; [by apply (load_teachers_nonempty file) | by apply (load_teachers_names file)].
Qed.

Lemma step_catalog (s : State) (c : Call) (activity_name : string) :
  catalog_entry <$> (activities (step s c) !! activity_name)
  = catalog_entry <$> (activities s !! activity_name).
Proof.
  unfold step. destruct c as [cr tok|rq|name email rq|name email rq]; simpl.
  - rewrite login_teacher_cases.
    destruct (teacher_credentials s !! username cr) as [e|]; [|done].
    by destruct (Py.truthy e && bool_decide (e = password cr)).
  - rewrite logout_teacher_cases. simpl.
    destruct (cookies rq !! session_cookie) as [t|]; [|done].
    by destruct (Py.truthy t).
  - destruct (signup_for_activity name email rq s) as [[r|e] s'] eqn:Hcall; simpl.
    + apply signup_return_inv in Hcall as (t & a & _ & Ha & _ & ->).
      unfold store_activity. simpl. rewrite lookup_insert.
      case_decide as Heq; [|done]. subst. by rewrite Ha.
    + by apply signup_raise_state in Hcall as ->.
  - destruct (unregister_from_activity name email rq s) as [[r|e] s'] eqn:Hcall; simpl.
    + apply unregister_return_inv in Hcall as (t & a & _ & Ha & _ & ->).
      unfold store_activity. simpl. rewrite lookup_insert.
      case_decide as Heq; [|done]. subst. by rewrite Ha.
    + by apply unregister_raise_state in Hcall as ->.
Qed.

(** X4: no request adds, drops or re-describes an activity: in every
    state of the running service [GET /activities] returns a dictionary
    with exactly the names of the seed database, each with its seed
    description, schedule and capacity; only rosters differ. *)
Theorem catalog_is_fixed (s : State) :
  reachable s →
  ∃ listing,
    get_activities s = (Return listing, s)
    ∧ dom listing = dom seed_activities
    ∧ ∀ activity_name,
        catalog_entry <$> (listing !! activity_name)
        = catalog_entry <$> (seed_activities !! activity_name).
Proof.
  intros Hreach. exists (activities s). split; [done|].
  assert (Hcat : ∀ activity_name,
    catalog_entry <$> (activities s !! activity_name)
    = catalog_entry <$> (seed_activities !! activity_name)).
  { revert s Hreach. apply (reachable_induction (λ s, ∀ activity_name,
      catalog_entry <$> (activities s !! activity_name)
      = catalog_entry <$> (seed_activities !! activity_name))).
    - done.
    - intros s c _ _ IH name. by rewrite step_catalog. }
  split; [|done].
  apply set_eq. intros name. rewrite !elem_of_dom.
  specialize (Hcat name).
  destruct (activities s !! name), (seed_activities !! name);
    simpl in Hcat; try done; split; intros [? ?]; done.
Qed.

(** ** Sessions *)

Lemma step_sessions_issued (s : State) (c : Call) :
  well_formed_call c → sessions_issued s → sessions_issued (step s c).
Proof.
  intros Hwf Hs. unfold step.
  destruct c as [cr tok|rq|name email rq|name email rq]; simpl.
  - rewrite login_teacher_cases.
    destruct (teacher_credentials s !! username cr) as [e|] eqn:He; [|done].
    destruct (Py.truthy e && bool_decide (e = password cr)); [|done].
    intros token u. simpl. rewrite lookup_insert.
    case_decide as Heq; [|apply Hs].
    intros [= <-]. subst token. split; [exact Hwf | by rewrite He].
  - rewrite logout_teacher_cases. simpl.
    destruct (cookies rq !! session_cookie) as [t|]; [|done].
    destruct (Py.truthy t); [|done].
    intros token u. simpl. rewrite lookup_delete.
    case_decide; [done|apply Hs].
  - destruct (signup_for_activity name email rq s) as [[r|e] s'] eqn:Hcall; simpl.
    + by apply signup_return_inv in Hcall as (t & a & _ & _ & _ & ->).
    + by apply signup_raise_state in Hcall as ->.
  - destruct (unregister_from_activity name email rq s) as [[r|e] s'] eqn:Hcall; simpl.
    + by apply unregister_return_inv in Hcall as (t & a & _ & _ & _ & ->).
    + by apply unregister_raise_state in Hcall as ->.
Qed.

Lemma reachable_sessions_issued (s : State) :
  reachable s → sessions_issued s.
Proof.
  revert s. apply reachable_induction.
  - intros file credentials _ token u. simpl. by rewrite lookup_empty.
  - intros s c _ Hwf IH. by apply step_sessions_issued.
Qed.

(** X5: whoever passes the gate is a teacher of the credential store:
    in the running service, when [require_teacher] returns a name, the
    globals are untouched, the request carries a session cookie, its
    token is mapped to that name in the session table, and the name has
    a password in the credential store. *)
Theorem gate_admits_only_teachers (s s' : State) (request : Request)
    (teacher : string) :
  reachable s →
  require_teacher request s = (Return teacher, s') →
  s' = s
  ∧ (∃ token, presented_token request = Some token
              ∧ teacher_sessions s !! token = Some teacher)
  ∧ ∃ stored, teacher_credentials s !! teacher = Some stored.
Proof.
  intros Hreach Hgate.
  destruct (require_teacher_cases s request)
    as [(t & (token & Hc & _ & Hs & _) & Hret)|[_ Hraise]]; [|congruence].
  rewrite Hret in Hgate. injection Hgate as -> <-.
  split; [done|]. split; [by exists token|].
  by destruct (reachable_sessions_issued s Hreach token teacher Hs) as [_ [p Hp]];
    exists p.
Qed.

(** X6: [/auth/status] and the gate agree in the running service: the
    status call never raises and never changes the globals, and it
    reports [authenticated] with user name [u] exactly when
    [require_teacher] would let the same request through as [u]. *)
Theorem auth_status_agrees_with_gate (s : State) (request : Request) :
  reachable s →
  ∃ status,
    auth_status request s = (Return status, s)
    ∧ (authenticated status = true ↔ is_Some (status_username status))
    ∧ ∀ u, status_username status = Some u
           ↔ require_teacher request s = (Return u, s).
Proof.
  intros Hreach.
  destruct (reachable_invariants s Hreach) as [_ [_ Hnames]].
  unfold auth_status, require_teacher. unfold_monad.
  rewrite get_current_teacher_eq.
  destruct (cookies request !! session_cookie) as [token|] eqn:Hc.
  - destruct (Py.truthy token) eqn:Ht.
    + destruct (teacher_sessions s !! token) as [u0|] eqn:Hs.
      * destruct (Hnames token u0 Hs) as [_ Hu0%truthy_true].
        eexists. split; [done|]. simpl. split.
        -- split; [by eexists|done].
        -- intros u. rewrite Hu0. split; [by intros [= ->] | by intros [= ->]].
      * eexists. split; [done|]. simpl. split.
        -- split; [done | by intros [? ?]].
        -- intros u. split; done.
    + eexists. split; [done|]. simpl. split.
      * split; [done | by intros [? ?]].
      * intros u. split; done.
  - eexists. split; [done|]. simpl. split.
    + split; [done | by intros [? ?]].
    + intros u. split; done.
Qed.

(** X7: a login followed by the logout that presents the token just
    issued is a round trip: when the token was not yet in the session
    table, the globals after the logout are the globals before the
    login. *)
Theorem login_then_logout_restores (s s' : State) (credentials : LoginRequest)
    (session_token : string) (response : Response) (request : Request) :
  Py.token_urlsafe_32 session_token →
  teacher_sessions s !! session_token = None →
  login_teacher credentials session_token s = (Return response, s') →
  presented_token request = Some session_token →
  ∃ goodbye, logout_teacher request s' = (Return goodbye, s).
Proof.
  intros Htok%token_urlsafe_32_nonempty%truthy_true Hfresh Hlogin Hcookie.
  rewrite login_teacher_cases in Hlogin.
  destruct (teacher_credentials s !! username credentials) as [x|]; [|done].
  destruct (Py.truthy x && bool_decide (x = password credentials)); [|done].
  injection Hlogin as _ <-.
  rewrite logout_teacher_cases. unfold presented_token in Hcookie.
  rewrite Hcookie, Htok. simpl. eexists. f_equal.
  rewrite delete_insert_eq, delete_id by done. by destruct s.
Qed.

(** X8: logging out closes one session only: a caller who is logged in
    with another token than the one the logout request presents is
    still logged in, under the same name, after the logout. *)
Theorem logout_keeps_other_sessions (s : State) (request other : Request)
    (teacher : string) :
  logged_in s other teacher →
  presented_token other ≠ presented_token request →
  logged_in (snd (logout_teacher request s)) other teacher.
Proof.
  intros (token & Hc & Ht & Hs & Hn) Hdiff.
  rewrite logout_teacher_cases. simpl. unfold presented_token in Hdiff.
  exists token. split_and!; try done.
  destruct (cookies request !! session_cookie) as [t|] eqn:Hrc; [|done].
  destruct (Py.truthy t); [|done]. simpl.
  rewrite lookup_delete_ne; [done|]. intros ->. congruence.
Qed.

(** X9: logging in closes nobody's session: a caller who is logged in
    with another token than the one drawn for the new login is still
    logged in, under the same name, whether the login succeeds or not. *)
Theorem login_keeps_other_sessions (s : State) (credentials : LoginRequest)
    (session_token : string) (other : Request) (teacher : string) :
  logged_in s other teacher →
  presented_token other ≠ Some session_token →
  logged_in (snd (login_teacher credentials session_token s)) other teacher.
Proof.
  intros (token & Hc & Ht & Hs & Hn) Hdiff.
  rewrite login_teacher_cases. unfold presented_token in Hdiff.
  exists token. split_and!; try done.
  destruct (teacher_credentials s !! username credentials) as [x|]; [|done].
  destruct (Py.truthy x && bool_decide (x = password credentials)); [|done].
  simpl. rewrite lookup_insert_ne; [done|]. intros ->. congruence.
Qed.

(** ** Rosters *)

Lemma list_remove_appended (x : string) (l : list string) :
  x ∉ l → Py.list_remove x (l ++ [x]) = l.
Proof.
  induction l as [|y l IH]; simpl.
  - intros _. by destruct (decide (x = x)).
  - rewrite not_elem_of_cons. intros [Hne Hl].
    destruct (decide (x = y)); [done|]. by rewrite IH.
Qed.

Lemma list_remove_other (x y : string) (l : list string) :
  y ≠ x → y ∈ Py.list_remove x l ↔ y ∈ l.
Proof.
  intros Hne. induction l as [|z l IH]; [done|]. simpl.
  destruct (decide (x = z)) as [<-|Hxz].
  - rewrite elem_of_cons. split; [by right | by intros [?|?]].
  - rewrite !elem_of_cons, IH. done.
Qed.

Lemma list_remove_length (x : string) (l : list string) :
  x ∈ l → S (length (Py.list_remove x l)) = length l.
Proof.
  induction l as [|y l IH]; [by intros ?%elem_of_nil|]. simpl.
  destruct (decide (x = y)); [done|].
  intros [?|Hin]%elem_of_cons; [done|]. simpl. by rewrite IH.
Qed.

Lemma list_remove_gone (x : string) (l : list string) :
  NoDup l → x ∉ Py.list_remove x l.
Proof.
  induction 1 as [|y l Hy Hl IH]; simpl; [apply not_elem_of_nil|].
  destruct (decide (x = y)) as [->|Hne]; [done|].
  rewrite not_elem_of_cons. done.
Qed.

Lemma logged_in_store_activity s activity_name activity request teacher :
  logged_in s request teacher →
  logged_in (store_activity s activity_name activity) request teacher.
Proof. done. Qed.

(** X10: a sign-up followed by the unregistration of the same student
    is a round trip: for a logged-in caller, a known activity and a
    student who was not on its roster, both calls return and the
    globals after the second are the globals before the first. *)
Theorem signup_then_unregister_restores
    (s : State) (activity_name email : string) (request : Request)
    (teacher : string) (activity : Activity) :
  logged_in s request teacher →
  activities s !! activity_name = Some activity →
  email ∉ participants activity →
  ∃ added s1 removed,
    signup_for_activity activity_name email request s = (Return added, s1)
    ∧ unregister_from_activity activity_name email request s1
      = (Return removed, s).
Proof.
  intros Hin Ha Hnew.
  rewrite signup_for_activity_gate, (require_teacher_logged_in _ _ _ Hin), Ha.
  rewrite bool_decide_eq_false_2 by done.
  eexists _, _, _. split; [done|].
  rewrite unregister_from_activity_gate.
  rewrite (require_teacher_logged_in _ _ teacher)
    by by apply logged_in_store_activity.
  rewrite store_activity_lookup. simpl.
  rewrite bool_decide_eq_false_2.
  - f_equal. rewrite list_remove_appended by done.
    unfold store_activity, with_participants. simpl.
    rewrite insert_insert_eq.
    destruct s as [creds sessions acts], activity as [d sc m l]. simpl in *.
    by rewrite (insert_id acts activity_name _ Ha).
  - intros Hno. apply Hno, elem_of_app. right. by apply list_elem_of_singleton.
Qed.

(** X11: in the running service an unregistration that returned cannot
    be repeated: rosters hold no duplicate, so the student is gone and
    the same call raises 400 "Student is not signed up for this
    activity", leaving the globals as they were. *)
Theorem repeated_unregister_rejected
    (s s' : State) (activity_name email : string) (request : Request)
    (response : Response) :
  reachable s →
  unregister_from_activity activity_name email request s = (Return response, s') →
  unregister_from_activity activity_name email request s'
  = (Raise (mkHTTPException 400 "Student is not signed up for this activity"), s').
Proof.
  intros Hreach (t & a & Hin & Ha & Hmem & ->)%unregister_return_inv.
  destruct (reachable_invariants s Hreach) as [Hd _].
  rewrite unregister_from_activity_gate.
  rewrite (require_teacher_logged_in _ _ t) by by apply logged_in_store_activity.
  rewrite store_activity_lookup. simpl.
  rewrite bool_decide_eq_true_2; [done|].
  apply list_remove_gone. by apply (Hd activity_name).
Qed.

(** X12: a sign-up or unregistration that returns moves one student
    only: every other email is on the roster afterwards exactly when it
    was on it before, and the roster is one longer after a sign-up and
    one shorter after an unregistration. *)
Theorem mutation_moves_one_student
    (s s' : State) (activity_name email : string) (request : Request)
    (response : Response) :
  signup_for_activity activity_name email request s = (Return response, s')
  ∨ unregister_from_activity activity_name email request s = (Return response, s') →
  ∃ old new,
    activities s !! activity_name = Some old
    ∧ activities s' !! activity_name = Some new
    ∧ (∀ other, other ≠ email →
         other ∈ participants new ↔ other ∈ participants old)
    ∧ (signup_for_activity activity_name email request s = (Return response, s') →
       length (participants new) = S (length (participants old)))
    ∧ (unregister_from_activity activity_name email request s
       = (Return response, s') →
       S (length (participants new)) = length (participants old)).
Proof.
  intros [Hcall|Hcall].
  - pose proof Hcall as (t & a & _ & Ha & Hnew & ->)%signup_return_inv.
    eexists a, _. split; [done|]. split; [apply store_activity_lookup|].
    simpl. split_and!.
    + intros other Hne. rewrite elem_of_app, list_elem_of_singleton.
      split; [by intros [?|?] | by left].
    + intros _. rewrite length_app. simpl. lia.
    + intros (t' & a' & _ & Ha' & Hmem & _)%unregister_return_inv.
      rewrite Ha in Ha'. by injection Ha' as <-.
  - pose proof Hcall as (t & a & _ & Ha & Hmem & ->)%unregister_return_inv.
    eexists a, _. split; [done|]. split; [apply store_activity_lookup|].
    simpl. split_and!.
    + intros other Hne. by apply list_remove_other.
    + intros (t' & a' & _ & Ha' & Hnew & _)%signup_return_inv.
      rewrite Ha in Ha'. by injection Ha' as <-.
    + intros _. by apply list_remove_length.
Qed.

(** X13: sign-ups on two different activities do not interfere: done in
    either order they both return, with the same responses and the same
    final globals. *)
Theorem signups_on_distinct_activities_commute
    (s s1 s12 : State) (name1 email1 name2 email2 : string)
    (request1 request2 : Request) (response1 response2 : Response) :
  name1 ≠ name2 →
  signup_for_activity name1 email1 request1 s = (Return response1, s1) →
  signup_for_activity name2 email2 request2 s1 = (Return response2, s12) →
  ∃ s2,
    signup_for_activity name2 email2 request2 s = (Return response2, s2)
    ∧ signup_for_activity name1 email1 request1 s2 = (Return response1, s12).
Proof.
  intros Hne Hfirst Hsecond.
  pose proof Hfirst as (t1 & a1 & Hin1 & Ha1 & Hnew1 & ->)%signup_return_inv.
  pose proof Hsecond as (t2 & a2 & Hin2 & Ha2 & Hnew2 & ->)%signup_return_inv.
  rewrite store_activity_lookup_ne in Ha2 by done.
  rewrite signup_for_activity_gate in Hfirst, Hsecond.
  rewrite (require_teacher_logged_in _ _ _ Hin1), Ha1 in Hfirst.
  rewrite (bool_decide_eq_false_2 _ Hnew1) in Hfirst.
  injection Hfirst as <-.
  rewrite (require_teacher_logged_in _ _ _ Hin2) in Hsecond.
  rewrite store_activity_lookup_ne, Ha2 in Hsecond by done.
  rewrite (bool_decide_eq_false_2 _ Hnew2) in Hsecond.
  injection Hsecond as <-.
  eexists. split.
  - rewrite signup_for_activity_gate.
    rewrite (require_teacher_logged_in _ _ t2) by exact Hin2.
    by rewrite Ha2, (bool_decide_eq_false_2 _ Hnew2).
  - rewrite signup_for_activity_gate.
    rewrite (require_teacher_logged_in _ _ t1)
      by (apply logged_in_store_activity; exact Hin1).
    rewrite store_activity_lookup_ne, Ha1 by done.
    rewrite (bool_decide_eq_false_2 _ Hnew1). f_equal.
    unfold store_activity. simpl. f_equal. by apply insert_insert_ne.
Qed.

(** X14: only a logged-in teacher changes the registry: when the
    [activities] dictionary after a request differs from the one before,
    the request was a sign-up or an unregistration, and
    [require_teacher] let its caller through. *)
Theorem only_teachers_change_rosters (s : State) (c : Call) :
  activities (step s c) ≠ activities s →
  ∃ activity_name email request teacher,
    (c = CallSignup activity_name email request
     ∨ c = CallUnregister activity_name email request)
    ∧ logged_in s request teacher.
Proof.
  unfold step. destruct c as [cr tok|rq|name email rq|name email rq]; simpl.
  - rewrite login_teacher_cases.
    destruct (teacher_credentials s !! username cr) as [e|]; [|done].
    by destruct (Py.truthy e && bool_decide (e = password cr)).
  - rewrite logout_teacher_cases. simpl.
    destruct (cookies rq !! session_cookie) as [t|]; [|done].
    by destruct (Py.truthy t).
  - destruct (signup_for_activity name email rq s) as [[r|e] s'] eqn:Hcall; simpl.
    + apply signup_return_inv in Hcall as (t & a & Hin & _).
      intros _. exists name, email, rq, t. split; [by left|done].
    + by apply signup_raise_state in Hcall as ->.
  - destruct (unregister_from_activity name email rq s) as [[r|e] s'] eqn:Hcall; simpl.
    + apply unregister_return_inv in Hcall as (t & a & Hin & _).
      intros _. exists name, email, rq, t. split; [by right|done].
    + by apply unregister_raise_state in Hcall as ->.
Qed.

(** X15: re-enrolling costs the place in the list: in the running
    service, when a student is unregistered and signed up again for the
    same activity, both calls return and the student is at the end of
    the roster, the others keeping their order. *)
Theorem reenrolled_student_goes_last
    (s s' : State) (activity_name email : string) (request : Request)
    (response : Response) :
  reachable s →
  unregister_from_activity activity_name email request s = (Return response, s') →
  ∃ old before after again s'',
    activities s !! activity_name = Some old
    ∧ participants old = before ++ (email :: after)
    ∧ signup_for_activity activity_name email request s' = (Return again, s'')
    ∧ participants <$> (activities s'' !! activity_name)
      = Some (before ++ after ++ [email]).
Proof.
  intros Hreach (t & a & Hin & Ha & Hmem & ->)%unregister_return_inv.
  destruct (reachable_invariants s Hreach) as [Hd _].
  destruct (list_remove_split email (participants a) Hmem)
    as (before & after & Hsplit & _ & Hrem).
  exists a, before, after.
  rewrite signup_for_activity_gate.
  rewrite (require_teacher_logged_in _ _ t) by by apply logged_in_store_activity.
  rewrite store_activity_lookup. simpl.
  rewrite bool_decide_eq_false_2
    by (apply list_remove_gone; by apply (Hd activity_name)).
  eexists _, _. split_and!; [done | done | done |].
  rewrite store_activity_lookup. simpl. by rewrite Hrem, <- app_assoc.
Qed.

(** ** Start-up and login together *)

(** X16: who can log in is decided by the file alone: at any time
    after start-up, a login with user name [u] and password [p] returns
    exactly when the last valid entry of [teachers.json] whose user name
    is the string [u] has the string [p] as its password.  (An entry is
    valid when both fields are truthy; a later valid entry whose
    password is not a string shuts the user out.) *)
Theorem login_accepts_last_valid_entry (file : option TeachersFile)
    (credentials : PyDict) (calls : list Call)
    (u p session_token : string) :
  load_teachers file = Loaded credentials →
  (∃ response s',
     login_teacher (mkLoginRequest u p) session_token
       (run calls (initial_state credentials)) = (Return response, s'))
  ↔ ∃ before teacher after,
      entries_of file = before ++ (teacher :: after)
      ∧ valid_entry teacher
      ∧ entry_username teacher = JStr u
      ∧ entry_password teacher = JStr p
      ∧ ∀ later, later ∈ after → valid_entry later →
                 entry_username later ≠ JStr u.
Proof.
  intros Hload.
  assert (Hnames := load_teachers_names file credentials Hload).
  assert (Hlookup : credentials !! u = Some p
    ↔ ∃ before teacher after,
        entries_of file = before ++ (teacher :: after)
        ∧ valid_entry teacher
        ∧ entry_username teacher = JStr u
        ∧ entry_password teacher = JStr p
        ∧ ∀ later, later ∈ after → valid_entry later →
                   entry_username later ≠ JStr u).
  { rewrite dict_lookup_str.
    pose proof Hload
      as (fields & items & -> & Hiter & Hloop & _)%load_teachers_loaded_inv.
    unfold entries_of. rewrite Hiter. simpl.
    rewrite (load_loop_lookup items credentials (KStr u) (JStr p) Hloop).
    split; intros (before & t & after & Hsplit & Hv & Hk & Hp & Hlater);
      exists before, t, after; split_and!; try done.
    - by apply py_key_str.
    - intros later Hin Hvl Heq. apply (Hlater later Hin Hvl). by apply py_key_str.
    - by apply py_key_str.
    - intros later Hin Hvl Heq%py_key_str. by apply (Hlater later Hin Hvl). }
  rewrite <- Hlookup, login_teacher_cases, run_credentials. simpl.
  destruct (credentials !! u) as [stored|] eqn:Hstored.
  - destruct (Hnames u stored Hstored) as [_ Hp%truthy_true]. rewrite Hp. simpl.
    case_bool_decide as Heq.
    + subst. split; [done | by eexists _, _].
    + split; [by intros (? & ? & ?) | by intros [= ->]].
  - split; [by intros (? & ? & ?) | done].
Qed.

(** X18: one stray item stops the start-up, whatever else the file
    holds: when the loop, after entries it got past, reaches an item
    that is not an object, [load_teachers] raises [AttributeError]; when
    it reaches a valid entry whose user name is a list or a dictionary,
    it raises [TypeError].  No item after it is looked at. *)
Theorem load_teachers_stops_at_stray_item (fields : gmap string Json)
    (before after : list Json) (stray : Json) :
  py_iter (default (JArr []) (fields !! "teachers"))
  = Some (before ++ (stray :: after)) →
  Forall sound_entry before →
  (¬ is_object stray →
   load_teachers (Some (Parsed (JObj fields))) = AttributeError)
  ∧ (valid_entry stray → py_key (entry_username stray) = None →
     load_teachers (Some (Parsed (JObj fields))) = TypeError).
Proof.
  intros Hiter [d Hbefore]%(load_loop_sound before ∅).
  assert (Hloop : ∀ raised,
    (∀ d', raised ≠ Loaded d') →
    load_entry d stray = raised →
    load_loop ∅ (before ++ (stray :: after)) = raised).
  { intros raised Hraised Hentry.
    change (before ++ stray :: after) with (before ++ [stray] ++ after).
    rewrite app_assoc, load_loop_app_raise; rewrite load_loop_snoc, Hbefore;
      [done | by rewrite Hentry]. }
  unfold load_teachers. rewrite Hiter. split.
  - intros Hstray. by rewrite (Hloop AttributeError);
      [| | apply load_entry_stray].
  - intros Hv Hk. by rewrite (Hloop TypeError);
      [| | apply load_entry_unhashable].
Qed.

(** ** The further properties at concrete inputs *)

Lemma staff_state_reachable : reachable staff_state.
Proof.
  exists (Some staff_file), staff_credentials,
    [CallLogin (mkLoginRequest "mr.smith" "secret") demo_token;
     CallLogin (mkLoginRequest "ms.jones" "chalk") other_token].
  split_and!; [vm_compute; reflexivity | | reflexivity].
  repeat constructor.
Qed.

Lemma staff_logged_in :
  logged_in staff_state (request_with other_token) "ms.jones".
Proof.
  exists other_token.
  split_and!; [vm_compute; reflexivity | discriminate
              | vm_compute; reflexivity | discriminate].
Qed.

Lemma failed_call_changes_nothing_witness :
  snd (handle (CallSignup "Chess Club" "michael@mergington.edu"
                 (request_with demo_token)) demo_state)
  = demo_state.
Proof.
  apply (failed_call_changes_nothing
           (CallSignup "Chess Club" "michael@mergington.edu"
              (request_with demo_token))
           demo_state _
           (mkHTTPException 400 "Student is already signed up")).
  vm_compute. reflexivity.
Defined.

Lemma raised_status_codes_witness :
  status_code (mkHTTPException 404 "Activity not found") = 401
  ∨ status_code (mkHTTPException 404 "Activity not found") = 404
  ∨ status_code (mkHTTPException 404 "Activity not found") = 400.
Proof.
  apply (raised_status_codes
           (CallUnregister "Knitting Circle" "new@mergington.edu"
              (request_with demo_token))
           demo_state demo_state).
  vm_compute. reflexivity.
Defined.

Lemma credentials_never_change_witness :
  teacher_credentials crowded_state = demo_credentials.
Proof.
  apply (credentials_never_change (Some demo_file) demo_credentials crowd_calls).
  vm_compute. reflexivity.
Defined.

Lemma catalog_is_fixed_witness :
  ∃ listing,
    get_activities crowded_state = (Return listing, crowded_state)
    ∧ dom listing = dom seed_activities
    ∧ ∀ activity_name,
        catalog_entry <$> (listing !! activity_name)
        = catalog_entry <$> (seed_activities !! activity_name).
Proof.
  apply (catalog_is_fixed crowded_state).
  exists (Some demo_file), demo_credentials, crowd_calls.
  split_and!; [vm_compute; reflexivity | repeat constructor | reflexivity].
Defined.

Lemma gate_admits_only_teachers_witness :
  ∃ stored, teacher_credentials staff_state !! "ms.jones" = Some stored.
Proof.
  apply (gate_admits_only_teachers staff_state staff_state
           (request_with other_token) "ms.jones").
  - exact staff_state_reachable.
  - vm_compute. reflexivity.
Defined.

Lemma auth_status_agrees_with_gate_witness :
  ∃ status,
    auth_status (request_with other_token) staff_state = (Return status, staff_state)
    ∧ status_username status = Some "ms.jones".
Proof.
  destruct (auth_status_agrees_with_gate staff_state (request_with other_token)
              staff_state_reachable) as (status & Hcall & _ & Hname).
  exists status. split; [exact Hcall|].
  apply Hname. vm_compute. reflexivity.
Defined.

Lemma login_then_logout_restores_witness :
  ∃ goodbye,
    logout_teacher (request_with demo_token) demo_state
    = (Return goodbye, initial_state demo_credentials).
Proof.
  apply (login_then_logout_restores (initial_state demo_credentials) demo_state
           (mkLoginRequest "mr.smith" "secret") demo_token
           (mkResponse [("message", "Logged in as mr.smith");
                        ("username", "mr.smith")]
              (SetCookie session_cookie demo_token true "lax" 28800))
           (request_with demo_token)).
  - reflexivity.
  - vm_compute. reflexivity.
  - vm_compute. reflexivity.
  - vm_compute. reflexivity.
Defined.

Lemma logout_keeps_other_sessions_witness :
  logged_in (snd (logout_teacher (request_with demo_token) staff_state))
    (request_with other_token) "ms.jones".
Proof.
  apply (logout_keeps_other_sessions staff_state (request_with demo_token)
           (request_with other_token) "ms.jones").
  - exact staff_logged_in.
  - vm_compute. discriminate.
Defined.

Lemma login_keeps_other_sessions_witness :
  logged_in
    (snd (login_teacher (mkLoginRequest "mr.smith" "secret") demo_token staff_state))
    (request_with other_token) "ms.jones".
Proof.
  apply (login_keeps_other_sessions staff_state
           (mkLoginRequest "mr.smith" "secret") demo_token
           (request_with other_token) "ms.jones").
  - exact staff_logged_in.
  - vm_compute. discriminate.
Defined.

Lemma signup_then_unregister_restores_witness :
  ∃ added s1 removed,
    signup_for_activity "Chess Club" "new@mergington.edu"
      (request_with demo_token) demo_state = (Return added, s1)
    ∧ unregister_from_activity "Chess Club" "new@mergington.edu"
        (request_with demo_token) s1 = (Return removed, demo_state).
Proof.
  apply (signup_then_unregister_restores demo_state "Chess Club"
           "new@mergington.edu" (request_with demo_token) "mr.smith"
           seed_chess_club).
  - apply demo_logged_in. vm_compute. reflexivity.
  - vm_compute. reflexivity.
  - apply (bool_decide_unpack _). vm_compute. exact I.
Defined.

Lemma repeated_unregister_rejected_witness :
  unregister_from_activity "Chess Club" "daniel@mergington.edu"
    (request_with demo_token)
    (store_activity demo_state "Chess Club"
       (with_participants seed_chess_club ["michael@mergington.edu"]))
  = (Raise (mkHTTPException 400 "Student is not signed up for this activity"),
     store_activity demo_state "Chess Club"
       (with_participants seed_chess_club ["michael@mergington.edu"])).
Proof.
  apply (repeated_unregister_rejected demo_state _ "Chess Club"
           "daniel@mergington.edu" (request_with demo_token)
           (mkResponse
              [("message", "Unregistered daniel@mergington.edu from Chess Club")]
              NoCookie)).
  - exact demo_state_reachable.
  - vm_compute. reflexivity.
Defined.

Lemma mutation_moves_one_student_witness :
  ∃ old new,
    activities demo_state !! "Chess Club" = Some old
    ∧ activities
        (snd (signup_for_activity "Chess Club" "new@mergington.edu"
                (request_with demo_token) demo_state)) !! "Chess Club"
      = Some new
    ∧ ("michael@mergington.edu" ∈ participants new
       ↔ "michael@mergington.edu" ∈ participants old).
Proof.
  destruct (mutation_moves_one_student demo_state
              (snd (signup_for_activity "Chess Club" "new@mergington.edu"
                      (request_with demo_token) demo_state))
              "Chess Club" "new@mergington.edu" (request_with demo_token)
              (mkResponse
                 [("message", "Signed up new@mergington.edu for Chess Club")]
                 NoCookie))
    as (old & new & Hold & Hnew & Hothers & _).
  - left. vm_compute. reflexivity.
  - exists old, new. split; [exact Hold|]. split; [exact Hnew|].
    apply Hothers. discriminate.
Defined.

Lemma signups_on_distinct_activities_commute_witness :
  ∃ s2,
    signup_for_activity "Math Club" "b@mergington.edu"
      (request_with demo_token) demo_state
    = (Return (mkResponse
                 [("message", "Signed up b@mergington.edu for Math Club")]
                 NoCookie), s2)
    ∧ signup_for_activity "Chess Club" "a@mergington.edu"
        (request_with demo_token) s2
      = (Return (mkResponse
                   [("message", "Signed up a@mergington.edu for Chess Club")]
                   NoCookie),
         run [CallSignup "Chess Club" "a@mergington.edu" (request_with demo_token);
              CallSignup "Math Club" "b@mergington.edu" (request_with demo_token)]
             demo_state).
Proof.
  apply (signups_on_distinct_activities_commute demo_state
           (run [CallSignup "Chess Club" "a@mergington.edu"
                   (request_with demo_token)] demo_state)).
  - discriminate.
  - vm_compute. reflexivity.
  - vm_compute. reflexivity.
Defined.

Lemma only_teachers_change_rosters_witness :
  ∃ activity_name email request teacher,
    (CallSignup "Chess Club" "new@mergington.edu" (request_with demo_token)
     = CallSignup activity_name email request
     ∨ CallSignup "Chess Club" "new@mergington.edu" (request_with demo_token)
       = CallUnregister activity_name email request)
    ∧ logged_in demo_state request teacher.
Proof.
  apply (only_teachers_change_rosters demo_state
           (CallSignup "Chess Club" "new@mergington.edu" (request_with demo_token))).
  intros Heq.
  apply (f_equal (λ m : gmap string Activity,
                    participants <$> (m !! "Chess Club"))) in Heq.
  vm_compute in Heq. discriminate.
Defined.

Lemma login_accepts_last_valid_entry_witness :
  (∃ response s',
     login_teacher (mkLoginRequest "mr.smith" "changed") demo_token
       (run [] (initial_state (mkPyDict [(JStr "mr.smith", JStr "changed")])))
     = (Return response, s'))
  ∧ ¬ (∃ response s',
         login_teacher (mkLoginRequest "mr.smith" "secret") demo_token
           (run [] (initial_state (mkPyDict [(JStr "mr.smith", JInt 12345)])))
         = (Return response, s')).
Proof.
  assert (Hload : load_teachers (Some twice_file)
                  = Loaded (mkPyDict [(JStr "mr.smith", JStr "changed")]))
    by (vm_compute; reflexivity).
  assert (Hnumeric : load_teachers (Some numeric_file)
                     = Loaded (mkPyDict [(JStr "mr.smith", JInt 12345)]))
    by (vm_compute; reflexivity).
  split.
  - apply (proj2 (login_accepts_last_valid_entry (Some twice_file) _ []
                    "mr.smith" "changed" demo_token Hload)).
    exists [teacher_object (JStr "mr.smith") (JStr "secret")],
           (teacher_object (JStr "mr.smith") (JStr "changed")), [].
    split; [reflexivity|]. split.
    + split; [by eexists|]. split; vm_compute; reflexivity.
    + split; [vm_compute; reflexivity|]. split; [vm_compute; reflexivity|].
      intros later Hin. by apply elem_of_nil in Hin.
  - intros Hlogin.
    apply (proj1 (login_accepts_last_valid_entry (Some numeric_file) _ []
                    "mr.smith" "secret" demo_token Hnumeric)) in Hlogin
      as (before & t & after & Hsplit & _ & _ & Hp & Hlater).
    vm_compute in Hsplit.
    destruct before as [|t0 [|t1 [|t2 before]]]; try discriminate.
    + injection Hsplit as <- <-.
      apply (Hlater (teacher_object (JStr "mr.smith") (JInt 12345))).
      * apply list_elem_of_here.
      * split; [by eexists|]. split; vm_compute; reflexivity.
      * vm_compute. reflexivity.
    + injection Hsplit as _ <- _. vm_compute in Hp. discriminate.
Defined.

Lemma load_teachers_stops_at_stray_item_witness :
  load_teachers (Some stray_file) = AttributeError.
Proof.
  apply (load_teachers_stops_at_stray_item
           {[ "teachers" :=
                JArr [teacher_object (JStr "mr.smith") (JStr "secret");
                      JStr "oops"] ]}
           [teacher_object (JStr "mr.smith") (JStr "secret")] []
           (JStr "oops")).
  - vm_compute. reflexivity.
  - constructor; [|constructor]. split; [by eexists|]. intros _. by eexists.
  - intros [fields Hobj]. discriminate.
Defined.

Lemma reenrolled_student_goes_last_witness :
  ∃ old before after again s'',
    activities demo_state !! "Chess Club" = Some old
    ∧ participants old = before ++ ("michael@mergington.edu" :: after)
    ∧ signup_for_activity "Chess Club" "michael@mergington.edu"
        (request_with demo_token)
        (store_activity demo_state "Chess Club"
           (with_participants seed_chess_club ["daniel@mergington.edu"]))
      = (Return again, s'')
    ∧ participants <$> (activities s'' !! "Chess Club")
      = Some (before ++ after ++ ["michael@mergington.edu"]).
Proof.
  apply (reenrolled_student_goes_last demo_state _ "Chess Club"
           "michael@mergington.edu" (request_with demo_token)
           (mkResponse
              [("message", "Unregistered michael@mergington.edu from Chess Club")]
              NoCookie)).
  - exact demo_state_reachable.
  - vm_compute. reflexivity.
Defined.
